(** * The NCCL debug logger ([src/debug.cc]) as a shallow embedding

    The development follows the translation unit top to bottom: the C
    library pieces the logger leans on (characters, [strcasecmp],
    [strtok], [snprintf] into a fixed array), then the file-scope state,
    [numDigits], [ncclDebugSetDistributorParams], [ncclDebugInit] and
    [ncclDebugLog], and finally the properties of each.

    Conventions.  A C [int] is a [Z]; [size_t], [unsigned long] and
    [uint64_t] are [Z] reduced modulo [2^64] where the source can wrap.
    The text of a NUL-terminated string is a [list ascii] without its
    terminator.  Undefined behaviour (a load or store outside an array)
    is an explicit outcome of the [Result] monad. *)

From Stdlib Require Import ZArith List Ascii String Bool Lia Permutation.
Import ListNotations.
Local Open Scope Z_scope.

(** ** Characters and strings of the C library *)

Module CStr.

Definition text := list ascii.

Definition str (s : string) : text := list_ascii_of_string s.

Definition NUL : ascii := "000"%char.

Definition code (c : ascii) : Z := Z.of_nat (nat_of_ascii c).

Definition len (s : text) : Z := Z.of_nat (List.length s).

(** [tolower] in the C locale: only 'A'..'Z' move. *)
Definition tolower (c : ascii) : ascii :=
  if (65 <=? code c) && (code c <=? 90)
  then ascii_of_nat (nat_of_ascii c + 32)
  else c.

(** [strcasecmp]: difference of the first pair of folded bytes that
    differ, the terminator counting as byte 0. *)
Fixpoint strcasecmp (a b : text) : Z :=
  match a, b with
  | [], [] => 0
  | [], y :: _ => 0 - code (tolower y)
  | x :: _, [] => code (tolower x)
  | x :: a', y :: b' =>
      if code (tolower x) =? code (tolower y)
      then strcasecmp a' b'
      else code (tolower x) - code (tolower y)
  end.

(** The successive results of [strtok(s, delim)], [strtok(NULL, delim)],
    ... up to the first NULL: the maximal non-empty runs of [s] free of
    the delimiter, in order.  [cur] is the run being read, reversed. *)
Fixpoint strtok_from (delim : ascii) (s : text) (cur : text) : list text :=
  match s with
  | [] => match cur with [] => [] | _ => [rev cur] end
  | c :: s' =>
      if Ascii.eqb c delim
      then match cur with
           | [] => strtok_from delim s' []
           | _ => rev cur :: strtok_from delim s' []
           end
      else strtok_from delim s' (c :: cur)
  end.

Definition strtok_all (delim : ascii) (s : text) : list text :=
  strtok_from delim s [].

(** Decimal rendering of an [int], as [%d] and [operator<<(int)] print
    it.  The digits are produced from the least significant one;
    [fuel] bounds the number of digits. *)
Definition digit (d : Z) : ascii := ascii_of_nat (48 + Z.to_nat d).

Fixpoint digits (fuel : nat) (n : Z) (acc : text) : text :=
  match fuel with
  | O => acc
  | S k =>
      if n <? 10 then digit n :: acc
      else digits k (n / 10) (digit (n mod 10) :: acc)
  end.

Definition digits_fuel (n : Z) : nat := S (Z.to_nat (Z.log2 n)).

Definition decimal (n : Z) : text :=
  if n <? 0
  then "-"%char :: digits (digits_fuel (- n)) (- n) []
  else digits (digits_fuel n) n [].

(** [os << std::setfill(fill) << std::setw(width) << v] on a fresh
    stream: right-adjusted, the fill goes in front. *)
Definition ostream_int (fill : ascii) (width : Z) (v : Z) : text :=
  let s := decimal v in
  repeat fill (Z.to_nat (width - len s)) ++ s.

End CStr.

Import CStr.

(** ** numDigits *)

(** The loop [while (n > 0) { n /= 10; ndigits++; }].  [None] only when
    [fuel] iterations were not enough to leave the loop. *)
Fixpoint numDigits_loop (fuel : nat) (n ndigits : Z) : option Z :=
  if n >? 0 then
    match fuel with
    | O => None
    | S k => numDigits_loop k (Z.quot n 10) (ndigits + 1)
    end
  else Some ndigits.

Definition numDigits_fuel (n : Z) : nat := S (Z.to_nat (Z.log2 n)).

Definition numDigits (n : Z) : Z :=
  match numDigits_loop (numDigits_fuel n) n 0 with
  | Some d => d
  | None => 0
  end.

(** ** Outcomes, and arrays of [char] with checked accesses *)

Module Mem.

Inductive Fault : Type :=
| StoreOutOfBounds (index : Z)
| LoadOutOfBounds (index : Z)
| LoadIndeterminate (index : Z).

(** [Ub]: the access named by the fault has no defined behaviour in C.
    [OutOfFuel] belongs to the model only: a loop was cut short. *)
Inductive Result (A : Type) : Type :=
| Ok (a : A)
| Ub (f : Fault)
| OutOfFuel.

Arguments Ok {A} a.
Arguments Ub {A} f.
Arguments OutOfFuel {A}.

Definition bind {A B : Type} (r : Result A) (k : A -> Result B) : Result B :=
  match r with
  | Ok a => k a
  | Ub f => Ub f
  | OutOfFuel => OutOfFuel
  end.

(** A cell is [None] until something has been stored in it (an
    automatic array starts that way). *)
Definition array := list (option ascii).

Definition size (b : array) : Z := Z.of_nat (List.length b).

Definition in_bounds (b : array) (i : Z) : bool := (0 <=? i) && (i <? size b).

Definition store (b : array) (i : Z) (c : ascii) : Result array :=
  if in_bounds b i
  then Ok (firstn (Z.to_nat i) b ++ Some c :: skipn (S (Z.to_nat i)) b)
  else Ub (StoreOutOfBounds i).

Definition load (b : array) (i : Z) : Result ascii :=
  if in_bounds b i
  then match nth (Z.to_nat i) b None with
       | Some c => Ok c
       | None => Ub (LoadIndeterminate i)
       end
  else Ub (LoadOutOfBounds i).

(** Consecutive stores of the bytes of [s] from index [off]. *)
Fixpoint store_chars (b : array) (off : Z) (s : text) : Result array :=
  match s with
  | [] => Ok b
  | c :: s' => bind (store b off c) (fun b' => store_chars b' (off + 1) s')
  end.

(** Consecutive loads of [n] bytes from index [off]. *)
Fixpoint load_chars (b : array) (off : Z) (n : nat) : Result text :=
  match n with
  | O => Ok []
  | S k =>
      bind (load b off) (fun c =>
      bind (load_chars b (off + 1) k) (fun s => Ok (c :: s)))
  end.

(** The string that starts at index [off]: loads up to the first NUL. *)
Fixpoint c_str_from (fuel : nat) (b : array) (off : Z) : Result text :=
  bind (load b off) (fun c =>
    if Ascii.eqb c NUL then Ok []
    else match fuel with
         | O => OutOfFuel
         | S k => bind (c_str_from k b (off + 1)) (fun s => Ok (c :: s))
         end).

Definition c_str (b : array) : Result text := c_str_from (List.length b) b 0.

(** [snprintf(b + off, size, "%s", s)] and [vsnprintf] with the expansion
    of the format already in [s]: at most [size - 1] bytes of [s] are
    stored, then a NUL; nothing at all when [size] is 0.  The value
    returned is the full length of [s] (texts here are shorter than
    [INT_MAX]). *)
Definition snprintf (b : array) (off size : Z) (s : text) : Result (array * Z) :=
  if size =? 0 then Ok (b, len s)
  else
    let n := Z.min (len s) (size - 1) in
    bind (store_chars b off (firstn (Z.to_nat n) s)) (fun b1 =>
    bind (store b1 (off + n) NUL) (fun b2 =>
    Ok (b2, len s))).

(** The byte [s[c]] of a NUL-terminated string: the terminator sits at
    index [len s], nothing is known past it. *)
Definition char_at (s : text) (c : Z) : Result ascii :=
  if (0 <=? c) && (c <? len s) then Ok (nth (Z.to_nat c) s NUL)
  else if c =? len s then Ok NUL
  else Ub (LoadOutOfBounds c).

End Mem.

Import Mem.

Notation "x <- e ;; k" := (bind e (fun x => k))
  (at level 61, e at next level, right associativity).
Notation "' p <- e ;; k" := (bind e (fun x => let p := x in k))
  (at level 61, p pattern, e at next level, right associativity).

(** ** Constants of the headers *)

Definition u64 (x : Z) : Z := x mod 2 ^ 64.

(** [~x] on a [uint64_t]. *)
Definition not64 (x : Z) : Z := u64 (Z.lnot x).

(** [<limits.h>] on Linux. *)
Definition PATH_MAX : Z := 4096.

(** Modelled from the spec: the enumeration [ncclDebugLogLevel] is declared
    in a header outside this translation unit; the spec gives its declared
    sequence NONE < VERSION < WARN < INFO < ABORT < TRACE, numbered from 0
    as a C enumeration is. *)
Definition NCCL_LOG_NONE : Z := 0.
Definition NCCL_LOG_VERSION : Z := 1.
Definition NCCL_LOG_WARN : Z := 2.
Definition NCCL_LOG_INFO : Z := 3.
Definition NCCL_LOG_ABORT : Z := 4.
Definition NCCL_LOG_TRACE : Z := 5.

(** Modelled from the spec: the subsystem bits are declared in the same
    header; the spec lists them as a bitset in this order, one bit each,
    and ALL as the full set that an inverted list starts from. *)
Definition NCCL_INIT : Z := 1.
Definition NCCL_COLL : Z := 2.
Definition NCCL_P2P : Z := 4.
Definition NCCL_SHM : Z := 8.
Definition NCCL_NET : Z := 16.
Definition NCCL_GRAPH : Z := 32.
Definition NCCL_TUNING : Z := 64.
Definition NCCL_ENV : Z := 128.
Definition NCCL_ALLOC : Z := 256.
Definition NCCL_CALL : Z := 512.
Definition NCCL_PROXY : Z := 1024.
Definition NCCL_NVLS : Z := 2048.
Definition NCCL_BOOTSTRAP : Z := 4096.
Definition NCCL_REG : Z := 8192.
Definition NCCL_ALL : Z := 2 ^ 64 - 1.

(** ** File-scope state *)

(** [FILE *ncclDebugFile]: [stdout], or the stream [fopen] returned for a
    path. *)
Inductive Sink : Type :=
| Stdout
| Opened (path : text).

(** The globals of the translation unit.  [hostname] and [ncclLastError]
    are only ever written whole, from their first byte and within their
    size, so they are kept as the text they hold.  [written] is the
    history of [fwrite] calls, oldest first. *)
Record State : Type := mkState {
  ncclDebugLevel : Z;
  rank : text;
  nranks : text;
  pid : Z;
  hostname : text;
  ncclLastError : text;
  ncclDebugMask : Z;
  ncclDebugFile : Sink;
  ncclEpoch : Z;
  written : list (Sink * text)
}.

(** The initial values of the definitions at lines 20-30. *)
Definition initial_state : State :=
  {| ncclDebugLevel := -1;
     rank := str "?";
     nranks := str "?";
     pid := -1;
     hostname := [];
     ncclLastError := [];
     ncclDebugMask := Z.lor NCCL_INIT NCCL_ENV;
     ncclDebugFile := Stdout;
     ncclEpoch := 0;
     written := [] |}.

(** The two thread-local variables. *)
Record Thread : Type := mkThread {
  ncclDebugNoWarn : Z;
  tid : Z
}.

(** What the external collaborators answer: [ncclGetEnv] for the three
    variables, [getHostName], [getpid], whether [fopen(path, "w")]
    succeeds, the steady clock read by [ncclDebugInit], and the parameter
    [NCCL_WARN_ENABLE_DEBUG_INFO]. *)
Record World : Type := mkWorld {
  env_NCCL_DEBUG : option text;
  env_NCCL_DEBUG_SUBSYS : option text;
  env_NCCL_DEBUG_FILE : option text;
  os_hostname : text;
  os_pid : Z;
  os_fopen : text -> bool;
  os_steady_now : Z;
  ncclParamWarnSetDebugInfo : Z
}.

(** ** ncclDebugSetDistributorParams *)

Definition ncclDebugSetDistributorParams (_rank _nranks : Z) (st : State) : State :=
  let ndigits := u64 (numDigits _nranks) in
  {| ncclDebugLevel := ncclDebugLevel st;
     rank := ostream_int "0" ndigits _rank;
     nranks := ostream_int "0" ndigits _nranks;
     pid := pid st;
     hostname := hostname st;
     ncclLastError := ncclLastError st;
     ncclDebugMask := ncclDebugMask st;
     ncclDebugFile := ncclDebugFile st;
     ncclEpoch := ncclEpoch st;
     written := written st |}.

(** ** ncclDebugInit *)

(** Lines 64-78: the value of [tempNcclDebugLevel] after the chain of
    [strcasecmp] tests. *)
Definition tempNcclDebugLevel (nccl_debug : option text) : Z :=
  match nccl_debug with
  | None => NCCL_LOG_NONE
  | Some s =>
      if strcasecmp s (str "VERSION") =? 0 then NCCL_LOG_VERSION
      else if strcasecmp s (str "WARN") =? 0 then NCCL_LOG_WARN
      else if strcasecmp s (str "INFO") =? 0 then NCCL_LOG_INFO
      else if strcasecmp s (str "ABORT") =? 0 then NCCL_LOG_ABORT
      else if strcasecmp s (str "TRACE") =? 0 then NCCL_LOG_TRACE
      else -1
  end.

(** Lines 92-123: the local [mask] chosen for one token. *)
Definition subsys_mask (subsys : text) : Z :=
  if strcasecmp subsys (str "INIT") =? 0 then NCCL_INIT
  else if strcasecmp subsys (str "COLL") =? 0 then NCCL_COLL
  else if strcasecmp subsys (str "P2P") =? 0 then NCCL_P2P
  else if strcasecmp subsys (str "SHM") =? 0 then NCCL_SHM
  else if strcasecmp subsys (str "NET") =? 0 then NCCL_NET
  else if strcasecmp subsys (str "GRAPH") =? 0 then NCCL_GRAPH
  else if strcasecmp subsys (str "TUNING") =? 0 then NCCL_TUNING
  else if strcasecmp subsys (str "ENV") =? 0 then NCCL_ENV
  else if strcasecmp subsys (str "ALLOC") =? 0 then NCCL_ALLOC
  else if strcasecmp subsys (str "CALL") =? 0 then NCCL_CALL
  else if strcasecmp subsys (str "PROXY") =? 0 then NCCL_PROXY
  else if strcasecmp subsys (str "NVLS") =? 0 then NCCL_NVLS
  else if strcasecmp subsys (str "BOOTSTRAP") =? 0 then NCCL_BOOTSTRAP
  else if strcasecmp subsys (str "REG") =? 0 then NCCL_REG
  else if strcasecmp subsys (str "ALL") =? 0 then NCCL_ALL
  else 0.

(** Lines 92-126: one turn of the [while (subsys != NULL)] loop. *)
Definition subsys_step (invert : bool) (debugMask : Z) (subsys : text) : Z :=
  let mask := subsys_mask subsys in
  if mask =? 0 then debugMask
  else if invert then Z.land debugMask (not64 mask)
  else Z.lor debugMask mask.

(** Lines 86-129: the mask left by a present [NCCL_DEBUG_SUBSYS]. *)
Definition parse_subsys (ncclDebugSubsysEnv : text) : Z :=
  let invert :=
    match ncclDebugSubsysEnv with
    | c :: _ => Ascii.eqb c "^"
    | [] => false
    end in
  let rest := if invert then tl ncclDebugSubsysEnv else ncclDebugSubsysEnv in
  fold_left (subsys_step invert) (strtok_all "," rest)
            (if invert then u64 (Z.lnot 0) else 0).

(** Lines 145-165: the [while] loop over the template.  [c] is the index
    into [ncclDebugFileEnv], [dfn] the offset of the write pointer in
    [debugFn]. *)
Fixpoint debugFn_loop (fuel : nat) (ncclDebugFileEnv host : text) (pid_ : Z)
         (c : Z) (debugFn : array) (dfn : Z) : Result (array * Z) :=
  cur <- char_at ncclDebugFileEnv c ;;
  if negb (Ascii.eqb cur NUL) && (c <? PATH_MAX) then
    match fuel with
    | O => OutOfFuel
    | S k =>
        first <- char_at ncclDebugFileEnv c ;;
        let c := c + 1 in
        if negb (Ascii.eqb first "%") then
          prev <- char_at ncclDebugFileEnv (c - 1) ;;
          debugFn <- store debugFn dfn prev ;;
          debugFn_loop k ncclDebugFileEnv host pid_ c debugFn (dfn + 1)
        else
          sel <- char_at ncclDebugFileEnv c ;;
          let c := c + 1 in
          if Ascii.eqb sel "%" then
            debugFn <- store debugFn dfn "%" ;;
            debugFn_loop k ncclDebugFileEnv host pid_ c debugFn (dfn + 1)
          else if Ascii.eqb sel "h" then
            ' (debugFn, n) <- snprintf debugFn dfn PATH_MAX host ;;
            debugFn_loop k ncclDebugFileEnv host pid_ c debugFn (dfn + n)
          else if Ascii.eqb sel "p" then
            ' (debugFn, n) <- snprintf debugFn dfn PATH_MAX (decimal pid_) ;;
            debugFn_loop k ncclDebugFileEnv host pid_ c debugFn (dfn + n)
          else
            debugFn <- store debugFn dfn "%" ;;
            prev <- char_at ncclDebugFileEnv (c - 1) ;;
            debugFn <- store debugFn (dfn + 1) prev ;;
            debugFn_loop k ncclDebugFileEnv host pid_ c debugFn (dfn + 2)
    end
  else Ok (debugFn, dfn).

(** Lines 142-166: [debugFn] after the expansion and its terminator.  The
    array has [PATH_MAX+1] bytes, all zero at first. *)
Definition expand_debugFn (ncclDebugFileEnv host : text) (pid_ : Z) : Result array :=
  let debugFn := repeat (Some NUL) (Z.to_nat (PATH_MAX + 1)) in
  ' (debugFn, dfn) <-
     debugFn_loop (Z.to_nat PATH_MAX) ncclDebugFileEnv host pid_ 0 debugFn 0 ;;
  store debugFn dfn NUL.

(** The path handed to [fopen]: the string held by [debugFn]. *)
Definition expand (ncclDebugFileEnv host : text) (pid_ : Z) : Result text :=
  debugFn <- expand_debugFn ncclDebugFileEnv host pid_ ;;
  c_str debugFn.

(** Lines 140-174: the stream in [ncclDebugFile] afterwards. *)
Definition open_debug_file (w : World) (temp : Z) (host : text) (pid_ : Z)
           (current : Sink) : Result Sink :=
  match env_NCCL_DEBUG_FILE w with
  | Some ncclDebugFileEnv =>
      if temp >? NCCL_LOG_VERSION then
        debugFn <- expand_debugFn ncclDebugFileEnv host pid_ ;;
        c0 <- load debugFn 0 ;;
        if negb (Ascii.eqb c0 NUL) then
          path <- c_str debugFn ;;
          if os_fopen w path then Ok (Opened path) else Ok current
        else Ok current
      else Ok current
  | None => Ok current
  end.

Definition ncclDebugInit (w : World) (st : State) : Result State :=
  if negb (ncclDebugLevel st =? -1) then Ok st
  else
    let temp := tempNcclDebugLevel (env_NCCL_DEBUG w) in
    let mask :=
      match env_NCCL_DEBUG_SUBSYS w with
      | Some e => parse_subsys e
      | None => ncclDebugMask st
      end in
    let host := os_hostname w in
    let pid_ := os_pid w in
    file <- open_debug_file w temp host pid_ (ncclDebugFile st) ;;
    Ok {| ncclDebugLevel := temp;
          rank := rank st;
          nranks := nranks st;
          pid := pid_;
          hostname := host;
          ncclLastError := ncclLastError st;
          ncclDebugMask := mask;
          ncclDebugFile := file;
          ncclEpoch := os_steady_now w;
          written := written st |}.

(** ** ncclDebugLog *)

(** What one call reads from the clocks and the kernel: the text
    [get_local_now()] returns, the [%f] rendering of the milliseconds since
    [ncclEpoch], and [syscall(SYS_gettid)]. *)
Record Clock : Type := mkClock {
  local_now : text;
  timestamp : text;
  os_gettid : Z
}.

(** The four format strings of lines 229-247, expanded. *)
Definition warn_prefix (st : State) (ck : Clock) (filefunc : text) (line : Z) : text :=
  str "[" ++ rank st ++ str "/" ++ nranks st ++ str "][" ++ local_now ck
  ++ str "] [" ++ filefunc ++ str ":" ++ decimal line
  ++ str "] [" ++ hostname st ++ str ":pid=" ++ decimal (pid st)
  ++ str "] NCCL WARN ".

Definition info_prefix (st : State) (ck : Clock) (filefunc : text) (line : Z) : text :=
  str "[" ++ rank st ++ str "/" ++ nranks st ++ str "][" ++ local_now ck
  ++ str "] [" ++ filefunc ++ str ":" ++ decimal line
  ++ str "] [" ++ hostname st ++ str ":pid=" ++ decimal (pid st)
  ++ str "] NCCL INFO ".

Definition call_prefix (st : State) : text :=
  str "[" ++ hostname st ++ str ":pid=" ++ decimal (pid st) ++ str "] NCCL CALL ".

Definition trace_prefix (st : State) (ck : Clock) (filefunc : text) (line : Z) : text :=
  str "[" ++ hostname st ++ str ":pid=" ++ decimal (pid st) ++ str "] "
  ++ timestamp ck ++ str " " ++ filefunc ++ str ":" ++ decimal line
  ++ str " NCCL TRACE ".

Definition set_ncclDebugLevel (v : Z) (st : State) : State :=
  {| ncclDebugLevel := v;
     rank := rank st; nranks := nranks st; pid := pid st;
     hostname := hostname st; ncclLastError := ncclLastError st;
     ncclDebugMask := ncclDebugMask st; ncclDebugFile := ncclDebugFile st;
     ncclEpoch := ncclEpoch st; written := written st |}.

Definition set_ncclLastError (e : text) (st : State) : State :=
  {| ncclDebugLevel := ncclDebugLevel st;
     rank := rank st; nranks := nranks st; pid := pid st;
     hostname := hostname st; ncclLastError := e;
     ncclDebugMask := ncclDebugMask st; ncclDebugFile := ncclDebugFile st;
     ncclEpoch := ncclEpoch st; written := written st |}.

(** [fwrite(bytes, 1, len, ncclDebugFile)]. *)
Definition fwrite (bytes : text) (st : State) : State :=
  {| ncclDebugLevel := ncclDebugLevel st;
     rank := rank st; nranks := nranks st; pid := pid st;
     hostname := hostname st; ncclLastError := ncclLastError st;
     ncclDebugMask := ncclDebugMask st; ncclDebugFile := ncclDebugFile st;
     ncclEpoch := ncclEpoch st;
     written := written st ++ [(ncclDebugFile st, bytes)] |}.

(** Line 215: [vsnprintf(ncclLastError, sizeof(ncclLastError), fmt, vargs)]
    leaves the first 1023 bytes of the message in the 1024-byte array. *)
Definition save_last_error (message : text) (st : State) : State :=
  set_ncclLastError (firstn 1023 message) st.

(** [sizeof(buffer)] for [char buffer[2048]]. *)
Definition sizeof_buffer : Z := 2048.

(** Lines 228-248: the prefix goes into [buffer] and its full length into
    [len]; the WARN branch may also raise the level. *)
Definition write_prefix (w : World) (ck : Clock) (level flags : Z)
           (filefunc : text) (line : Z) (buffer : array) (st : State)
  : Result (array * Z * State) :=
  if level =? NCCL_LOG_WARN then
    ' (buffer, n) <- snprintf buffer 0 sizeof_buffer (warn_prefix st ck filefunc line) ;;
    Ok (buffer, u64 n,
        if negb (ncclParamWarnSetDebugInfo w =? 0)
        then set_ncclDebugLevel NCCL_LOG_INFO st else st)
  else if level =? NCCL_LOG_INFO then
    ' (buffer, n) <- snprintf buffer 0 sizeof_buffer (info_prefix st ck filefunc line) ;;
    Ok (buffer, u64 n, st)
  else if (level =? NCCL_LOG_TRACE) && (flags =? NCCL_CALL) then
    ' (buffer, n) <- snprintf buffer 0 sizeof_buffer (call_prefix st) ;;
    Ok (buffer, u64 n, st)
  else if level =? NCCL_LOG_TRACE then
    ' (buffer, n) <- snprintf buffer 0 sizeof_buffer (trace_prefix st ck filefunc line) ;;
    Ok (buffer, u64 n, st)
  else Ok (buffer, 0, st).

(** Lines 250-260: the message behind the prefix, the clamp, the newline
    and the write. *)
Definition write_message (message : text) (buffer : array) (len0 : Z) (st : State)
  : Result State :=
  if negb (len0 =? 0) then
    ' (buffer, n) <- snprintf buffer len0 (u64 (sizeof_buffer - len0)) message ;;
    let len1 := u64 (len0 + n) in
    let len2 := if len1 >? sizeof_buffer then sizeof_buffer - 1 else len1 in
    buffer <- store buffer len2 "010" ;;
    let len3 := len2 + 1 in
    bytes <- load_chars buffer 0 (Z.to_nat len3) ;;
    Ok (fwrite bytes st)
  else Ok st.

(** Lines 207-260.  [message] is the expansion of [fmt] with the variadic
    arguments; [flags] is an [unsigned long]. *)
Definition ncclDebugLog (w : World) (ck : Clock) (level flags : Z)
           (filefunc : text) (line : Z) (message : text)
           (th : Thread) (st : State) : Result (State * Thread) :=
  st <- (if ncclDebugLevel st =? -1 then ncclDebugInit w st else Ok st) ;;
  let override := negb (ncclDebugNoWarn th =? 0) && (level =? NCCL_LOG_WARN) in
  let level := if override then NCCL_LOG_INFO else level in
  let flags := if override then u64 (ncclDebugNoWarn th) else flags in
  let st := if level =? NCCL_LOG_WARN then save_last_error message st else st in
  if (ncclDebugLevel st <? level) || (Z.land flags (ncclDebugMask st) =? 0)
  then Ok (st, th)
  else
    let th := if tid th =? -1
              then {| ncclDebugNoWarn := ncclDebugNoWarn th; tid := os_gettid ck |}
              else th in
    let buffer := repeat None (Z.to_nat sizeof_buffer) in
    ' (buffer, len0, st) <- write_prefix w ck level flags filefunc line buffer st ;;
    st <- write_message message buffer len0 st ;;
    Ok (st, th).

(** ** Reference points for the properties *)

(** Largest value of an [int]: what [vsnprintf] can report. *)
Definition INT_MAX : Z := 2 ^ 31 - 1.

(** Lines 226-260 for a given prefix: [buffer] is fresh, the prefix goes
    in, then the message, the newline and the write. *)
Definition assemble (prefix message : text) (st : State) : Result State :=
  ' (buffer, n) <-
     snprintf (repeat None (Z.to_nat sizeof_buffer)) 0 sizeof_buffer prefix ;;
  write_message message buffer (u64 n) st.

(** The line a call emits when the assembly stays inside [buffer]: the
    first 2047 bytes of prefix and message, and a newline. *)
Definition line_of (prefix message : text) : text :=
  firstn (Z.to_nat (sizeof_buffer - 1)) (prefix ++ message) ++ ["010"%char].

(** The prefix line 228-248 selects for a level, if any. *)
Definition prefix_of (st : State) (ck : Clock) (level flags : Z)
           (filefunc : text) (line : Z) : option text :=
  if level =? NCCL_LOG_WARN then Some (warn_prefix st ck filefunc line)
  else if level =? NCCL_LOG_INFO then Some (info_prefix st ck filefunc line)
  else if (level =? NCCL_LOG_TRACE) && (flags =? NCCL_CALL) then Some (call_prefix st)
  else if level =? NCCL_LOG_TRACE then Some (trace_prefix st ck filefunc line)
  else None.

(** Line 208: level and flags after the per-thread override. *)
Definition overridden (th : Thread) (level : Z) : bool :=
  negb (ncclDebugNoWarn th =? 0) && (level =? NCCL_LOG_WARN).

Definition level_after_override (th : Thread) (level : Z) : Z :=
  if overridden th level then NCCL_LOG_INFO else level.

Definition flags_after_override (th : Thread) (level flags : Z) : Z :=
  if overridden th level then u64 (ncclDebugNoWarn th) else flags.

(** Line 219 read positively: the record goes on to be formatted. *)
Definition eligible (st : State) (level flags : Z) : bool :=
  (level <=? ncclDebugLevel st) && negb (Z.land flags (ncclDebugMask st) =? 0).

(** Line 234: the level after the WARN branch has run. *)
Definition after_prefix (w : World) (level : Z) (st : State) : State :=
  if (level =? NCCL_LOG_WARN) && negb (ncclParamWarnSetDebugInfo w =? 0)
  then set_ncclDebugLevel NCCL_LOG_INFO st else st.

(** Lines 221-223: the thread with its id cached. *)
Definition cache_tid (ck : Clock) (th : Thread) : Thread :=
  if tid th =? -1
  then {| ncclDebugNoWarn := ncclDebugNoWarn th; tid := os_gettid ck |}
  else th.

(** Lines 219-260: the filter and everything behind it, on the state the
    earlier lines have left. *)
Definition filter_and_emit (w : World) (ck : Clock) (level flags : Z)
           (filefunc : text) (line : Z) (message : text)
           (th : Thread) (st : State) : Result (State * Thread) :=
  if eligible st level flags then
    match prefix_of st ck level flags filefunc line with
    | Some prefix =>
        st2 <- assemble prefix message (after_prefix w level st) ;;
        Ok (st2, cache_tid ck th)
    | None => Ok (st, cache_tid ck th)
    end
  else Ok (st, th).

(** The assembly of [prefix] and [message] has defined behaviour. *)
Definition stays_in_buffer (prefix message : text) : Prop :=
  len prefix <= sizeof_buffer
  /\ len prefix + len message <> sizeof_buffer
  /\ len message <= INT_MAX.

(** The subsystem list as the spec words it: the union of the subsystems
    named by the comma-separated tokens, or, behind a leading [^], the full
    set without that union. *)
Definition subsys_union (tokens : list text) : Z :=
  fold_right (fun t acc => Z.lor (subsys_mask t) acc) 0 tokens.

Definition subsys_list_spec (list : text) : Z :=
  match list with
  | c :: rest =>
      if Ascii.eqb c "^"
      then Z.ldiff NCCL_ALL (subsys_union (strtok_all "," rest))
      else subsys_union (strtok_all "," list)
  | [] => 0
  end.

(** The text holds no NUL: it is the content of a C string. *)
Definition c_string (s : text) : bool :=
  forallb (fun c => negb (Ascii.eqb c NUL)) s.

(** The expansion grammar in the spec's words: [%h] is the host name,
    [%p] the process id, [%%] a percent sign, any other [%X] both
    characters, and every other character itself.  (The grammar is silent
    on a [%] that ends the template; it is kept here.) *)
Fixpoint expand_spec (template host : text) (pid_ : Z) : text :=
  match template with
  | [] => []
  | c :: rest =>
      if Ascii.eqb c "%" then
        match rest with
        | [] => ["%"%char]
        | x :: rest' =>
            if Ascii.eqb x "%" then "%"%char :: expand_spec rest' host pid_
            else if Ascii.eqb x "h" then host ++ expand_spec rest' host pid_
            else if Ascii.eqb x "p" then decimal pid_ ++ expand_spec rest' host pid_
            else "%"%char :: x :: expand_spec rest' host pid_
        end
      else c :: expand_spec rest host pid_
  end.

(** The template ends in a [%] that has no character behind it. *)
Fixpoint dangling (template : text) : bool :=
  match template with
  | [] => false
  | c :: rest =>
      if Ascii.eqb c "%" then
        match rest with
        | [] => true
        | _ :: rest' => dangling rest'
        end
      else dangling rest
  end.

(** ** Sample inputs *)

Definition sample_world : World :=
  {| env_NCCL_DEBUG := Some (str "INFO");
     env_NCCL_DEBUG_SUBSYS := None;
     env_NCCL_DEBUG_FILE := None;
     os_hostname := str "h1";
     os_pid := 42;
     os_fopen := fun _ => true;
     os_steady_now := 0;
     ncclParamWarnSetDebugInfo := 0 |}.

Definition sample_clock : Clock :=
  {| local_now := str "2024-01-01 00:00:00,123";
     timestamp := str "1.500000";
     os_gettid := 7 |}.

(** An initialized state: level INFO, the default mask, host h1, pid 42. *)
Definition sample_state : State :=
  {| ncclDebugLevel := NCCL_LOG_INFO;
     rank := str "?";
     nranks := str "?";
     pid := 42;
     hostname := str "h1";
     ncclLastError := str "old";
     ncclDebugMask := Z.lor NCCL_INIT NCCL_ENV;
     ncclDebugFile := Stdout;
     ncclEpoch := 0;
     written := [] |}.

Definition plain_thread : Thread := {| ncclDebugNoWarn := 0; tid := -1 |}.

(** A thread that has set [ncclDebugNoWarn] to [NCCL_INIT]. *)
Definition quiet_thread : Thread := {| ncclDebugNoWarn := NCCL_INIT; tid := -1 |}.

(** A message that brings the sample WARN line to exactly 2048 bytes
    before the newline: 1985 bytes behind a prefix of 63. *)
Definition filling_message : text := repeat "x"%char 1985.

Definition bogus_world : World :=
  {| env_NCCL_DEBUG := Some (str "BOGUS");
     env_NCCL_DEBUG_SUBSYS := None;
     env_NCCL_DEBUG_FILE := None;
     os_hostname := str "h1";
     os_pid := 42;
     os_fopen := fun _ => true;
     os_steady_now := 0;
     ncclParamWarnSetDebugInfo := 0 |}.


(** [NCCL_DEBUG=INFO NCCL_DEBUG_FILE=log.%h.%p] on host h1, process 42. *)
Definition file_world : World :=
  {| env_NCCL_DEBUG := Some (str "INFO");
     env_NCCL_DEBUG_SUBSYS := None;
     env_NCCL_DEBUG_FILE := Some (str "log.%h.%p");
     os_hostname := str "h1";
     os_pid := 42;
     os_fopen := fun _ => true;
     os_steady_now := 0;
     ncclParamWarnSetDebugInfo := 0 |}.

(** [NCCL_DEBUG=INFO NCCL_DEBUG_FILE=log.%]: the template ends in a lone
    percent sign. *)
Definition percent_world : World :=
  {| env_NCCL_DEBUG := Some (str "INFO");
     env_NCCL_DEBUG_SUBSYS := None;
     env_NCCL_DEBUG_FILE := Some (str "log.%");
     os_hostname := str "h1";
     os_pid := 42;
     os_fopen := fun _ => true;
     os_steady_now := 0;
     ncclParamWarnSetDebugInfo := 0 |}.

(** A template of 2000 bytes, [%p] a thousand times over. *)
Definition many_pids : text := List.concat (repeat (str "%p") 1000).

(** ** Further functions of the translation unit *)

(** Lines 185-192 of [get_local_now]: the format handed to [put_time],
    with the milliseconds of the current second behind the comma.
    [count] is the number of milliseconds since the epoch (an [int64_t];
    [%] truncates towards zero). *)
Definition local_now_format (count : Z) : text :=
  str "%F %T," ++ ostream_int "0" 3 (Z.rem count 1000).

(** Lines 185-199.  [put_time] stands for [std::put_time] applied to the
    broken-down local time. *)
Definition get_local_now (put_time : text -> text) (count : Z) : text :=
  put_time (local_now_format count).

(** Lines 265-277 in a build with [_GNU_SOURCE]: the name handed to
    [pthread_setname_np], if any.  [NCCL_THREAD_NAMELEN] is declared in a
    header outside this translation unit and is taken as a parameter;
    [SetThreadName] is what [ncclParamSetThreadName()] returns and [name]
    the expansion of [fmt] with the variadic arguments. *)
Definition ncclSetThreadName (NCCL_THREAD_NAMELEN SetThreadName : Z) (name : text)
  : Result (option text) :=
  if negb (SetThreadName =? 1) then Ok None
  else
    let threadName := repeat None (Z.to_nat NCCL_THREAD_NAMELEN) in
    ' (threadName, _) <- snprintf threadName 0 NCCL_THREAD_NAMELEN name ;;
    applied <- c_str threadName ;;
    Ok (Some applied).

(** No [%] in the template. *)
Definition percent_free (template : text) : bool :=
  forallb (fun c => negb (Ascii.eqb c "%")) template.

(** ** Further sample inputs *)

(** [NCCL_DEBUG=VERSION] with a template that ends in a lone percent sign. *)
Definition version_world : World :=
  {| env_NCCL_DEBUG := Some (str "VERSION");
     env_NCCL_DEBUG_SUBSYS := None;
     env_NCCL_DEBUG_FILE := Some (str "log.%");
     os_hostname := str "h1";
     os_pid := 42;
     os_fopen := fun _ => true;
     os_steady_now := 0;
     ncclParamWarnSetDebugInfo := 0 |}.

(** As [file_world], on a file system where [fopen] fails. *)
Definition readonly_world : World :=
  {| env_NCCL_DEBUG := Some (str "INFO");
     env_NCCL_DEBUG_SUBSYS := None;
     env_NCCL_DEBUG_FILE := Some (str "log.%h.%p");
     os_hostname := str "h1";
     os_pid := 42;
     os_fopen := fun _ => false;
     os_steady_now := 0;
     ncclParamWarnSetDebugInfo := 0 |}.

(** [NCCL_DEBUG=TRACE NCCL_DEBUG_SUBSYS=] (present and empty). *)
Definition empty_subsys_world : World :=
  {| env_NCCL_DEBUG := Some (str "TRACE");
     env_NCCL_DEBUG_SUBSYS := Some [];
     env_NCCL_DEBUG_FILE := None;
     os_hostname := str "h1";
     os_pid := 42;
     os_fopen := fun _ => true;
     os_steady_now := 0;
     ncclParamWarnSetDebugInfo := 0 |}.

(** [NCCL_WARN_ENABLE_DEBUG_INFO=1]. *)
Definition escalating_world : World :=
  {| env_NCCL_DEBUG := Some (str "WARN");
     env_NCCL_DEBUG_SUBSYS := None;
     env_NCCL_DEBUG_FILE := None;
     os_hostname := str "h1";
     os_pid := 42;
     os_fopen := fun _ => true;
     os_steady_now := 0;
     ncclParamWarnSetDebugInfo := 1 |}.

(** [sample_state] with the level at WARN. *)
Definition warn_state : State := set_ncclDebugLevel NCCL_LOG_WARN sample_state.

(** * Properties *)

(** ** Checked arrays *)

Section ArrayFacts.

Implicit Types (a s : text) (rest b : array).

Lemma len_app a s : len (a ++ s) = len a + len s.
Proof. unfold len. rewrite length_app. lia. Qed.

Lemma len_nonneg a : 0 <= len a.
Proof. unfold len. lia. Qed.

Lemma size_known a rest : size (map Some a ++ rest) = len a + size rest.
Proof. unfold size, len. rewrite length_app, length_map. lia. Qed.

(** A store just behind the bytes known so far. *)
Lemma store_next a rest c x :
  store (map Some a ++ x :: rest) (len a) c = Ok (map Some (a ++ [c]) ++ rest).
Proof.
  unfold store, in_bounds. rewrite size_known.
  assert (H : 0 <= len a) by apply len_nonneg.
  assert (Hs : size (x :: rest) = 1 + size rest)
    by (unfold size; cbn [List.length]; lia).
  assert (0 <= size rest) by (unfold size; lia).
  replace (0 <=? len a) with true by (symmetry; apply Z.leb_le; lia).
  replace (len a <? len a + size (x :: rest)) with true
    by (symmetry; apply Z.ltb_lt; lia).
  cbn [andb]. unfold len. rewrite Nat2Z.id.
  rewrite firstn_app, firstn_all2 by (rewrite length_map; lia).
  rewrite length_map, Nat.sub_diag. cbn [firstn].
  rewrite app_nil_r.
  replace (S (List.length a)) with (List.length (map Some a) + 1)%nat
    by (rewrite length_map; lia).
  rewrite skipn_app, Nat.add_comm.
  rewrite skipn_all2 by (rewrite length_map; lia).
  replace (1 + List.length (map Some a) - List.length (map Some a))%nat with 1%nat by lia.
  cbn [skipn app]. rewrite map_app. cbn [map]. rewrite <- app_assoc.
  reflexivity.
Qed.

(** A store at or past the end of the array is a fault. *)
Lemma store_outside b i c :
  size b <= i -> store b i c = Ub (StoreOutOfBounds i).
Proof.
  intros H. unfold store, in_bounds.
  replace (i <? size b) with false by (symmetry; apply Z.ltb_ge; lia).
  rewrite andb_false_r. reflexivity.
Qed.

Lemma store_chars_next s : forall a rest,
  (List.length s <= List.length rest)%nat ->
  store_chars (map Some a ++ rest) (len a) s
  = Ok (map Some (a ++ s) ++ skipn (List.length s) rest).
Proof.
  induction s as [| c s IH]; intros a rest Hlen.
  - cbn. rewrite app_nil_r. reflexivity.
  - destruct rest as [| x rest]; [cbn in Hlen; lia |].
    cbn [store_chars]. rewrite store_next. cbn [bind].
    replace (len a + 1) with (len (a ++ [c]))
      by (rewrite len_app; reflexivity).
    rewrite IH by (cbn in Hlen; lia).
    rewrite <- app_assoc. reflexivity.
Qed.

(** The first store of a run that starts outside the array faults. *)
Lemma store_chars_outside s b off :
  s <> [] -> size b <= off -> store_chars b off s = Ub (StoreOutOfBounds off).
Proof.
  intros Hs H. destruct s as [| c s]; [congruence |].
  cbn [store_chars]. rewrite store_outside by assumption. reflexivity.
Qed.

Lemma load_known a s rest c :
  load (map Some (a ++ c :: s) ++ rest) (len a) = Ok c.
Proof.
  unfold load, in_bounds. rewrite size_known, len_app.
  assert (0 <= len a) by apply len_nonneg.
  assert (0 < len (c :: s)) by (unfold len; cbn [List.length]; lia).
  assert (0 <= size rest) by (unfold size; lia).
  replace (0 <=? len a) with true by (symmetry; apply Z.leb_le; lia).
  replace (len a <? len a + len (c :: s) + size rest) with true
    by (symmetry; apply Z.ltb_lt; lia).
  cbn [andb]. unfold len. rewrite Nat2Z.id.
  rewrite map_app, <- app_assoc.
  rewrite app_nth2 by (rewrite length_map; lia).
  rewrite length_map, Nat.sub_diag. reflexivity.
Qed.

Lemma load_chars_known s : forall a rest,
  load_chars (map Some (a ++ s) ++ rest) (len a) (List.length s) = Ok s.
Proof.
  induction s as [| c s IH]; intros a rest.
  - reflexivity.
  - cbn [load_chars List.length]. rewrite load_known. cbn [bind].
    replace (len a + 1) with (len (a ++ [c]))
      by (rewrite len_app; reflexivity).
    replace (a ++ c :: s) with ((a ++ [c]) ++ s)
      by (rewrite <- app_assoc; reflexivity).
    rewrite IH. reflexivity.
Qed.

Lemma load_chars_all s rest :
  load_chars (map Some s ++ rest) 0 (List.length s) = Ok s.
Proof. apply (load_chars_known s [] rest). Qed.

End ArrayFacts.

Section SnprintfFacts.

Implicit Types (a s : text) (rest b : array).

Lemma snprintf_next a rest size_ s :
  0 < size_ ->
  (Z.to_nat (Z.min (len s) (size_ - 1)) < List.length rest)%nat ->
  snprintf (map Some a ++ rest) (len a) size_ s
  = Ok (map Some (a ++ firstn (Z.to_nat (Z.min (len s) (size_ - 1))) s ++ [NUL])
          ++ skipn (S (Z.to_nat (Z.min (len s) (size_ - 1)))) rest,
        len s).
Proof.
  intros Hsize Hk. unfold snprintf.
  replace (size_ =? 0) with false by (symmetry; apply Z.eqb_neq; lia).
  set (k := Z.to_nat (Z.min (len s) (size_ - 1))) in *.
  assert (Hks : (k <= List.length s)%nat) by (unfold k, len; lia).
  assert (Hfl : List.length (firstn k s) = k) by (rewrite length_firstn; lia).
  rewrite store_chars_next by lia. cbn [bind]. rewrite Hfl.
  replace (len a + Z.min (len s) (size_ - 1)) with (len (a ++ firstn k s)).
  2:{ rewrite len_app. unfold len at 2. rewrite Hfl. unfold k, len. lia. }
  destruct (skipn k rest) as [| x rest'] eqn:E.
  { apply (f_equal (@List.length _)) in E. rewrite length_skipn in E.
    cbn in E. lia. }
  rewrite store_next. cbn [bind].
  replace (skipn (S k) rest) with rest'.
  2:{ change (S k) with (1 + k)%nat. rewrite <- skipn_skipn, E. reflexivity. }
  rewrite <- app_assoc. reflexivity.
Qed.

(** With [size] 0 nothing is stored, whatever the offset. *)
Lemma snprintf_size_0 b off s : snprintf b off 0 s = Ok (b, len s).
Proof. reflexivity. Qed.

(** A call whose first store lands outside the array faults there. *)
Lemma snprintf_outside b off size_ s :
  1 < size_ -> size b <= off ->
  snprintf b off size_ s = Ub (StoreOutOfBounds off).
Proof.
  intros Hsize Hoff. unfold snprintf.
  replace (size_ =? 0) with false by (symmetry; apply Z.eqb_neq; lia).
  destruct s as [| c s].
  - cbn [len List.length Z.of_nat]. rewrite Z.min_l by lia.
    cbn [Z.to_nat firstn store_chars bind]. rewrite Z.add_0_r.
    rewrite store_outside by assumption. reflexivity.
  - assert (Hk : exists k, Z.to_nat (Z.min (len (c :: s)) (size_ - 1)) = S k).
    { exists (Nat.pred (Z.to_nat (Z.min (len (c :: s)) (size_ - 1)))).
      unfold len. cbn [List.length]. lia. }
    destruct Hk as [k ->]. cbn [firstn store_chars].
    rewrite store_outside by assumption. reflexivity.
Qed.

End SnprintfFacts.

(** ** Assembly of a line in [buffer] *)

Lemma u64_small x : 0 <= x < 2 ^ 64 -> u64 x = x.
Proof. intros. unfold u64. apply Z.mod_small. assumption. Qed.

Lemma snprintf_prefix (prefix : text) :
  snprintf (repeat None (Z.to_nat sizeof_buffer)) 0 sizeof_buffer prefix
  = Ok (map Some (firstn (Z.to_nat (Z.min (len prefix) (sizeof_buffer - 1))) prefix
                  ++ [NUL])
          ++ skipn (S (Z.to_nat (Z.min (len prefix) (sizeof_buffer - 1))))
                   (repeat None (Z.to_nat sizeof_buffer)),
        len prefix).
Proof.
  apply (snprintf_next [] (repeat None (Z.to_nat sizeof_buffer))).
  - unfold sizeof_buffer. lia.
  - rewrite repeat_length. unfold sizeof_buffer. lia.
Qed.

Section Assembly.

Variables (prefix message : text) (st : State).

Let p := len prefix.
Let m := len message.

Hypothesis prefix_nonempty : 0 < p.
Hypothesis prefix_bounded : p <= sizeof_buffer.
Hypothesis message_bounded : m <= INT_MAX.

(** Inside the buffer: the emitted line is [line_of]. *)
Lemma assemble_fits :
  p + m <> sizeof_buffer ->
  assemble prefix message st = Ok (fwrite (line_of prefix message) st).
Proof.
  intros Hne. unfold assemble. rewrite snprintf_prefix. cbn [bind]. fold p.
  pose proof (len_nonneg message) as Hm0. fold m in Hm0.
  assert (Hpd : Z.of_nat (List.length prefix) = p) by reflexivity.
  assert (Hmd : Z.of_nat (List.length message) = m) by reflexivity.
  unfold INT_MAX, sizeof_buffer in *.
  rewrite u64_small by lia.
  unfold write_message, sizeof_buffer.
  replace (p =? 0) with false by (symmetry; apply Z.eqb_neq; lia).
  cbn [negb].
  destruct (Z.eq_dec p 2048) as [Hp | Hp].
  - (* the prefix alone fills the buffer *)
    rewrite Hp. change (u64 (2048 - 2048)) with 0.
    rewrite snprintf_size_0. cbn [bind]. fold m.
    rewrite u64_small by lia.
    replace (2048 + m >? 2048) with true by (symmetry; apply Z.gtb_lt; lia).
    rewrite Z.min_r by lia.
    set (P := firstn (Z.to_nat (2048 - 1)) prefix).
    assert (HP : len P = 2047).
    { unfold P, len. rewrite length_firstn. lia. }
    rewrite map_app, <- app_assoc. cbn [map app].
    replace (2048 - 1) with (len P) by lia.
    rewrite store_next. cbn [bind].
    replace (Z.to_nat (len P + 1)) with (List.length (P ++ ["010"%char])).
    2:{ rewrite length_app. cbn [List.length]. unfold len in *. lia. }
    rewrite load_chars_all. cbn [bind]. f_equal. f_equal.
    unfold line_of, sizeof_buffer. rewrite firstn_app.
    replace (Z.to_nat (2048 - 1) - List.length prefix)%nat with 0%nat
      by lia.
    cbn [firstn]. rewrite app_nil_r. reflexivity.
  - (* the prefix leaves room for its terminator *)
    assert (Hp' : p <= 2047) by lia.
    rewrite Z.min_l by lia.
    replace (firstn (Z.to_nat p) prefix) with prefix
      by (symmetry; apply firstn_all2; lia).
    rewrite map_app, <- app_assoc. cbn [map app].
    set (rest0 := skipn (S (Z.to_nat p)) (repeat None (Z.to_nat 2048))).
    assert (Hrest0 : List.length rest0 = Z.to_nat (2047 - p)).
    { unfold rest0. rewrite length_skipn, repeat_length. lia. }
    rewrite u64_small by lia.
    unfold p at 1 2.
    rewrite snprintf_next; [| lia | cbn [List.length]; fold p m; lia].
    cbn [bind]. fold m. fold p.
    set (k := Z.to_nat (Z.min m (2048 - p - 1))).
    rewrite u64_small by lia.
    assert (Hk : (k <= List.length message)%nat) by lia.
    assert (Hkd : Z.of_nat k = Z.min m (2047 - p)) by lia.
    assert (Hlen2 : (if p + m >? 2048 then 2048 - 1 else p + m)
                    = len (prefix ++ firstn k message)).
    { rewrite len_app. unfold len. rewrite length_firstn.
      destruct (Z.gtb_spec (p + m) 2048); lia. }
    rewrite Hlen2.
    replace (prefix ++ firstn k message ++ [NUL])
      with ((prefix ++ firstn k message) ++ [NUL])
      by (rewrite <- app_assoc; reflexivity).
    rewrite map_app, <- app_assoc. cbn [map app].
    rewrite store_next. cbn [bind].
    replace (Z.to_nat (len (prefix ++ firstn k message) + 1))
      with (List.length ((prefix ++ firstn k message) ++ ["010"%char])).
    2:{ rewrite length_app. cbn [List.length]. unfold len. lia. }
    rewrite load_chars_all. cbn [bind]. f_equal. f_equal.
    unfold line_of, sizeof_buffer. rewrite firstn_app. f_equal. f_equal.
    + symmetry. apply firstn_all2. lia.
    + destruct (Z_le_gt_dec m (2047 - p)) as [Hle | Hgt].
      * rewrite !firstn_all2; [reflexivity | |]; lia.
      * f_equal. lia.
Qed.

(** At exactly [sizeof(buffer)] bytes the clamp of line 257 does not
    apply and the newline is stored one past the last element. *)
Lemma assemble_overrun :
  p + m = sizeof_buffer ->
  assemble prefix message st = Ub (StoreOutOfBounds sizeof_buffer).
Proof.
  intros Heq. unfold assemble. rewrite snprintf_prefix. cbn [bind]. fold p.
  pose proof (len_nonneg message) as Hm0. fold m in Hm0.
  assert (Hpd : Z.of_nat (List.length prefix) = p) by reflexivity.
  assert (Hmd : Z.of_nat (List.length message) = m) by reflexivity.
  unfold INT_MAX, sizeof_buffer in *.
  rewrite u64_small by lia.
  unfold write_message, sizeof_buffer.
  replace (p =? 0) with false by (symmetry; apply Z.eqb_neq; lia).
  cbn [negb].
  destruct (Z.eq_dec p 2048) as [Hp | Hp].
  - rewrite Hp. change (u64 (2048 - 2048)) with 0.
    rewrite snprintf_size_0. cbn [bind]. fold m.
    replace m with 0 by lia. change (u64 (2048 + 0)) with 2048.
    change (2048 >? 2048) with false. cbn iota.
    rewrite store_outside; [reflexivity |].
    rewrite size_known, len_app. unfold len, size.
    rewrite length_firstn, length_skipn, repeat_length.
    cbn [List.length]. lia.
  - rewrite Z.min_l by lia.
    replace (firstn (Z.to_nat p) prefix) with prefix
      by (symmetry; apply firstn_all2; lia).
    rewrite map_app, <- app_assoc. cbn [map app].
    set (rest0 := skipn (S (Z.to_nat p)) (repeat None (Z.to_nat 2048))).
    assert (Hrest0 : List.length rest0 = Z.to_nat (2047 - p)).
    { unfold rest0. rewrite length_skipn, repeat_length. lia. }
    rewrite u64_small by lia.
    unfold p at 1 2.
    rewrite snprintf_next; [| lia | cbn [List.length]; fold p m; lia].
    cbn [bind]. fold m. fold p.
    rewrite u64_small by lia.
    replace (p + m >? 2048) with false by (symmetry; rewrite Heq; reflexivity).
    rewrite store_outside; [rewrite Heq; reflexivity |].
    rewrite size_known, !len_app. unfold len, size.
    rewrite length_firstn, length_skipn.
    cbn [List.length]. lia.
Qed.

End Assembly.

(** A prefix longer than the buffer: [sizeof(buffer) - len] wraps around
    and the message is stored from [buffer + len] on. *)
Lemma assemble_wild prefix message st :
  sizeof_buffer < len prefix <= INT_MAX ->
  assemble prefix message st = Ub (StoreOutOfBounds (len prefix)).
Proof.
  intros Hp. unfold assemble. rewrite snprintf_prefix. cbn [bind].
  unfold INT_MAX, sizeof_buffer in *.
  rewrite u64_small by lia.
  unfold write_message, sizeof_buffer.
  replace (len prefix =? 0) with false by (symmetry; apply Z.eqb_neq; lia).
  cbn [negb].
  rewrite snprintf_outside; [reflexivity | |].
  - unfold u64.
    replace (2048 - len prefix) with (2 ^ 64 - (len prefix - 2048) + (-1) * 2 ^ 64) by lia.
    rewrite Z.mod_add by lia. rewrite Z.mod_small by lia. lia.
  - rewrite size_known, len_app. unfold len, size in *.
    rewrite length_firstn, length_skipn, repeat_length.
    cbn [List.length]. lia.
Qed.

(** ** The shape of one call *)

(** Prefix and message together are one assembly, or nothing at all when
    no branch of lines 228-248 matches. *)
Lemma write_prefix_then_message w ck level flags filefunc line message st :
  (' (buffer, len0, st') <-
     write_prefix w ck level flags filefunc line
                  (repeat None (Z.to_nat sizeof_buffer)) st ;;
   write_message message buffer len0 st')
  = match prefix_of st ck level flags filefunc line with
    | Some prefix => assemble prefix message (after_prefix w level st)
    | None => Ok st
    end.
Proof.
  unfold write_prefix, prefix_of, after_prefix, assemble.
  destruct (level =? NCCL_LOG_WARN) eqn:Ew.
  { cbn [andb]. destruct (snprintf _ 0 sizeof_buffer _) as [[b n] | f |]; reflexivity. }
  destruct (level =? NCCL_LOG_INFO) eqn:Ei.
  { cbn [andb]. destruct (snprintf _ 0 sizeof_buffer _) as [[b n] | f |]; reflexivity. }
  destruct ((level =? NCCL_LOG_TRACE) && (flags =? NCCL_CALL)) eqn:Ec.
  { cbn [andb]. destruct (snprintf _ 0 sizeof_buffer _) as [[b n] | f |]; reflexivity. }
  destruct (level =? NCCL_LOG_TRACE) eqn:Et.
  { cbn [andb]. destruct (snprintf _ 0 sizeof_buffer _) as [[b n] | f |]; reflexivity. }
  reflexivity.
Qed.

Lemma eligible_spec st level flags :
  (ncclDebugLevel st <? level) || (Z.land flags (ncclDebugMask st) =? 0)
  = negb (eligible st level flags).
Proof.
  unfold eligible. rewrite negb_andb, negb_involutive.
  rewrite Z.leb_antisym, negb_involutive. reflexivity.
Qed.

(** Lines 208-260 once the state is initialized. *)
Lemma ncclDebugLog_initialized w ck level flags filefunc line message th st :
  ncclDebugLevel st <> -1 ->
  ncclDebugLog w ck level flags filefunc line message th st
  = let level' := level_after_override th level in
    let flags' := flags_after_override th level flags in
    let st1 := if level' =? NCCL_LOG_WARN then save_last_error message st else st in
    if eligible st1 level' flags' then
      match prefix_of st1 ck level' flags' filefunc line with
      | Some prefix =>
          st2 <- assemble prefix message (after_prefix w level' st1) ;;
          Ok (st2, cache_tid ck th)
      | None => Ok (st1, cache_tid ck th)
      end
    else Ok (st1, th).
Proof.
  intros Hinit. unfold ncclDebugLog.
  replace (ncclDebugLevel st =? -1) with false by (symmetry; apply Z.eqb_neq; assumption).
  cbn [bind]. fold (overridden th level).
  fold (level_after_override th level). fold (flags_after_override th level flags).
  cbv zeta. rewrite eligible_spec.
  destruct (eligible _ _ _); cbn [negb]; [| reflexivity].
  fold (cache_tid ck th).
  set (st1 := if level_after_override th level =? NCCL_LOG_WARN
              then save_last_error message st else st).
  pose proof (write_prefix_then_message w ck (level_after_override th level)
                (flags_after_override th level flags) filefunc line message st1) as H.
  destruct (write_prefix _ _ _ _ _ _ _ _) as [[[b n] st'] | f |]; cbn [bind] in *.
  - rewrite H. destruct (prefix_of _ _ _ _ _ _); reflexivity.
  - destruct (prefix_of _ _ _ _ _ _) as [pre |]; [| discriminate].
    rewrite <- H. reflexivity.
  - destruct (prefix_of _ _ _ _ _ _) as [pre |]; [| discriminate].
    rewrite <- H. reflexivity.
Qed.

Lemma ncclDebugLog_stages w ck level flags filefunc line message th st :
  ncclDebugLevel st <> -1 ->
  ncclDebugLog w ck level flags filefunc line message th st
  = filter_and_emit w ck (level_after_override th level)
      (flags_after_override th level flags) filefunc line message th
      (if level_after_override th level =? NCCL_LOG_WARN
       then save_last_error message st else st).
Proof. intros H. rewrite ncclDebugLog_initialized by assumption. reflexivity. Qed.

Lemma len_cons c (s : text) : len (c :: s) = 1 + len s.
Proof. unfold len. cbn [List.length]. lia. Qed.

(** Every prefix starts with a bracket. *)
Lemma prefix_of_nonempty st ck level flags filefunc line prefix :
  prefix_of st ck level flags filefunc line = Some prefix -> 0 < len prefix.
Proof.
  unfold prefix_of, warn_prefix, info_prefix, call_prefix, trace_prefix.
  intros H.
  repeat match type of H with
         | (if ?c then _ else _) = _ => destruct c
         end;
    inversion H; subst; cbn [str list_ascii_of_string app];
    rewrite len_cons; match goal with |- 0 < 1 + len ?x => pose proof (len_nonneg x) end; lia.
Qed.

(** The assembly only ever appends to the history of writes. *)
Lemma assemble_frame prefix message st st' :
  assemble prefix message st = Ok st' ->
  st' = st \/ exists bytes, st' = fwrite bytes st.
Proof.
  unfold assemble, write_message. intros H.
  destruct (snprintf _ 0 sizeof_buffer prefix) as [[b n] | |]; cbn [bind] in H;
    [| discriminate | discriminate].
  destruct (negb (u64 n =? 0)).
  - destruct (snprintf b _ _ message) as [[b' n'] | |]; cbn [bind] in H;
      [| discriminate | discriminate].
    destruct (store b' _ _) as [b'' | |]; cbn [bind] in H;
      [| discriminate | discriminate].
    destruct (load_chars b'' 0 _) as [bytes | |]; cbn [bind] in H;
      [| discriminate | discriminate].
    inversion H. right. eexists. reflexivity.
  - inversion H. left. reflexivity.
Qed.


(** When the assembly stays in bounds, the call returns, with one line
    appended to the history if a prefix branch matched. *)
Lemma filter_and_emit_fits w ck level flags filefunc line message th st :
  (forall prefix, prefix_of st ck level flags filefunc line = Some prefix ->
                  stays_in_buffer prefix message) ->
  filter_and_emit w ck level flags filefunc line message th st
  = if eligible st level flags then
      match prefix_of st ck level flags filefunc line with
      | Some prefix =>
          Ok (fwrite (line_of prefix message) (after_prefix w level st),
              cache_tid ck th)
      | None => Ok (st, cache_tid ck th)
      end
    else Ok (st, th).
Proof.
  intros Hfit. unfold filter_and_emit.
  destruct (eligible st level flags); [| reflexivity].
  destruct (prefix_of _ _ _ _ _ _) as [prefix |] eqn:E; [| reflexivity].
  destruct (Hfit prefix eq_refl) as (H1 & H2 & H3).
  rewrite assemble_fits; try assumption.
  - reflexivity.
  - eapply prefix_of_nonempty; eassumption.
Qed.

Lemma eligible_true st level flags :
  eligible st level flags = true
  <-> level <= ncclDebugLevel st /\ Z.land flags (ncclDebugMask st) <> 0.
Proof.
  unfold eligible. rewrite andb_true_iff, negb_true_iff, Z.leb_le, Z.eqb_neq.
  reflexivity.
Qed.

Lemma eligible_false st level flags :
  eligible st level flags = false
  <-> ncclDebugLevel st < level \/ Z.land flags (ncclDebugMask st) = 0.
Proof.
  unfold eligible. rewrite andb_false_iff, negb_false_iff, Z.leb_gt, Z.eqb_eq.
  reflexivity.
Qed.

Lemma no_override th level :
  ncclDebugNoWarn th = 0 -> overridden th level = false.
Proof. intros H. unfold overridden. rewrite H. reflexivity. Qed.

Lemma no_override_other th level :
  level <> NCCL_LOG_WARN -> overridden th level = false.
Proof.
  intros H. unfold overridden.
  replace (level =? NCCL_LOG_WARN) with false by (symmetry; apply Z.eqb_neq; assumption).
  apply andb_false_r.
Qed.

(** ** The eligibility filter *)

(** C1.  Once the state is initialized, a record whose level (after the
    per-thread override) is above the configured level, or whose flags
    (after the override) share no bit with the configured mask, is dropped:
    the call returns and nothing is handed to the sink.  With the configured
    level INFO and a flag in the mask, a WARN record on a thread without
    override is written (one line, prefix and message cut to the buffer and a
    newline, whenever the assembly stays inside the buffer), and a TRACE
    record is dropped. *)
Theorem eligibility_filter w ck level flags filefunc line message th st :
  ncclDebugLevel st <> -1 ->
  (ncclDebugLevel st < level_after_override th level
   \/ Z.land (flags_after_override th level flags) (ncclDebugMask st) = 0 ->
   exists st',
     ncclDebugLog w ck level flags filefunc line message th st = Ok (st', th)
     /\ written st' = written st)
  /\ (ncclDebugLevel st = NCCL_LOG_INFO ->
      Z.land flags (ncclDebugMask st) <> 0 ->
      (ncclDebugNoWarn th = 0 ->
       stays_in_buffer (warn_prefix st ck filefunc line) message ->
       exists st' th',
         ncclDebugLog w ck NCCL_LOG_WARN flags filefunc line message th st
         = Ok (st', th')
         /\ written st'
            = written st
              ++ [(ncclDebugFile st,
                   line_of (warn_prefix st ck filefunc line) message)])
      /\ (exists st',
            ncclDebugLog w ck NCCL_LOG_TRACE flags filefunc line message th st
            = Ok (st', th)
            /\ written st' = written st)).
Proof.
  intros Hinit. split; [| intros Hlevel Hflags; split].
  - intros Hdrop. rewrite ncclDebugLog_stages by assumption.
    unfold filter_and_emit.
    set (st1 := if _ =? NCCL_LOG_WARN then _ else st).
    assert (E : eligible st1 (level_after_override th level)
                         (flags_after_override th level flags) = false).
    { apply eligible_false. unfold st1.
      destruct (_ =? NCCL_LOG_WARN); exact Hdrop. }
    rewrite E. exists st1. split; [reflexivity |].
    unfold st1. destruct (_ =? NCCL_LOG_WARN); reflexivity.
  - intros Hnw Hfit. rewrite ncclDebugLog_stages by assumption.
    unfold level_after_override, flags_after_override.
    rewrite no_override by assumption.
    change (NCCL_LOG_WARN =? NCCL_LOG_WARN) with true. cbv iota.
    rewrite filter_and_emit_fits.
    2:{ intros prefix H. change (Some (warn_prefix st ck filefunc line) = Some prefix) in H.
        inversion H; subst. exact Hfit. }
    assert (E : eligible (save_last_error message st) NCCL_LOG_WARN flags = true).
    { apply eligible_true. split; [| exact Hflags].
      change (NCCL_LOG_WARN <= ncclDebugLevel st). rewrite Hlevel.
      unfold NCCL_LOG_WARN, NCCL_LOG_INFO. lia. }
    rewrite E. change (prefix_of (save_last_error message st) ck NCCL_LOG_WARN
                                 flags filefunc line)
      with (Some (warn_prefix st ck filefunc line)).
    cbv iota. eexists. eexists. split; [reflexivity |].
    unfold after_prefix. destruct (_ && _); reflexivity.
  - rewrite ncclDebugLog_stages by assumption.
    unfold level_after_override, flags_after_override.
    rewrite no_override_other by (unfold NCCL_LOG_TRACE, NCCL_LOG_WARN; lia).
    change (NCCL_LOG_TRACE =? NCCL_LOG_WARN) with false. cbv iota.
    unfold filter_and_emit.
    assert (E : eligible st NCCL_LOG_TRACE flags = false).
    { apply eligible_false. left. rewrite Hlevel.
      unfold NCCL_LOG_TRACE, NCCL_LOG_INFO. lia. }
    rewrite E. exists st. split; reflexivity.
Qed.

Lemma sample_warn_stays_in_buffer :
  stays_in_buffer (warn_prefix sample_state sample_clock (str "f.cc") 12) (str "boom").
Proof. unfold stays_in_buffer. vm_compute. repeat split; congruence. Qed.

Lemma eligibility_filter_witness :
  (exists st',
     ncclDebugLog sample_world sample_clock NCCL_LOG_TRACE NCCL_INIT
                  (str "f.cc") 12 (str "boom") plain_thread sample_state
     = Ok (st', plain_thread)
     /\ written st' = written sample_state)
  /\ (exists st' th',
        ncclDebugLog sample_world sample_clock NCCL_LOG_WARN NCCL_INIT
                     (str "f.cc") 12 (str "boom") plain_thread sample_state
        = Ok (st', th')
        /\ written st'
           = [(Stdout,
               str "[?/?][2024-01-01 00:00:00,123] [f.cc:12] [h1:pid=42] NCCL WARN boom"
               ++ ["010"%char])]).
Proof.
  assert (Hinit : ncclDebugLevel sample_state <> -1) by (vm_compute; congruence).
  split.
  - apply (proj1 (eligibility_filter sample_world sample_clock NCCL_LOG_TRACE
                    NCCL_INIT (str "f.cc") 12 (str "boom") plain_thread sample_state Hinit)).
    left. vm_compute. reflexivity.
  - apply (proj1 (proj2 (eligibility_filter sample_world sample_clock NCCL_LOG_WARN
                    NCCL_INIT (str "f.cc") 12 (str "boom") plain_thread sample_state Hinit)
                    eq_refl ltac:(vm_compute; congruence))).
    + reflexivity.
    + exact sample_warn_stays_in_buffer.
Defined.

(** ** Levels without a prefix *)



(** ** The last error *)






(** ** The bounds of [buffer] *)


Lemma filter_and_emit_prefix_state ck level flags filefunc line message st :
  let st1 := if level =? NCCL_LOG_WARN then save_last_error message st else st in
  eligible st1 level flags = eligible st level flags
  /\ prefix_of st1 ck level flags filefunc line
     = prefix_of st ck level flags filefunc line.
Proof. cbv zeta. destruct (level =? NCCL_LOG_WARN); split; reflexivity. Qed.

(** C3.  The assembly does not stay inside the 2048-byte buffer for every
    prefix and message.  When prefix and message together are exactly 2048
    bytes long, the test [len > sizeof(buffer)] of line 257 is false, the
    length is not clamped, and the newline is stored at index 2048, one past
    the last element (2049 bytes would then go to the sink).  When the prefix
    alone is longer than 2048 bytes, [sizeof(buffer) - len] wraps around and
    the message is stored from index [len] on. *)
Theorem newline_stored_past_buffer w ck level flags filefunc line message th st prefix :
  ncclDebugLevel st <> -1 ->
  eligible st (level_after_override th level)
           (flags_after_override th level flags) = true ->
  prefix_of st ck (level_after_override th level)
            (flags_after_override th level flags) filefunc line = Some prefix ->
  (len prefix + len message = sizeof_buffer ->
   ncclDebugLog w ck level flags filefunc line message th st
   = Ub (StoreOutOfBounds sizeof_buffer))
  /\ (sizeof_buffer < len prefix <= INT_MAX ->
      ncclDebugLog w ck level flags filefunc line message th st
      = Ub (StoreOutOfBounds (len prefix))).
Proof.
  intros Hinit Helig Hprefix.
  pose proof (filter_and_emit_prefix_state ck (level_after_override th level)
                (flags_after_override th level flags) filefunc line message st)
    as [E1 E2].
  assert (Hcall :
            ncclDebugLog w ck level flags filefunc line message th st
            = st2 <- assemble prefix message
                       (after_prefix w (level_after_override th level)
                          (if level_after_override th level =? NCCL_LOG_WARN
                           then save_last_error message st else st)) ;;
              Ok (st2, cache_tid ck th)).
  { rewrite ncclDebugLog_stages by assumption. unfold filter_and_emit.
    rewrite E1, E2, Helig, Hprefix. reflexivity. }
  pose proof (prefix_of_nonempty _ _ _ _ _ _ _ Hprefix) as Hpos.
  pose proof (len_nonneg message) as Hm.
  split; intros H; rewrite Hcall.
  - rewrite assemble_overrun by (unfold INT_MAX, sizeof_buffer in *; lia).
    reflexivity.
  - rewrite assemble_wild by assumption. reflexivity.
Qed.

Lemma newline_stored_past_buffer_witness :
  ncclDebugLog sample_world sample_clock NCCL_LOG_WARN NCCL_INIT
               (str "f.cc") 12 filling_message plain_thread sample_state
  = Ub (StoreOutOfBounds 2048).
Proof.
  apply (newline_stored_past_buffer sample_world sample_clock NCCL_LOG_WARN
           NCCL_INIT (str "f.cc") 12 filling_message plain_thread sample_state
           (warn_prefix sample_state sample_clock (str "f.cc") 12)).
  - vm_compute. congruence.
  - reflexivity.
  - reflexivity.
  - vm_compute. reflexivity.
Defined.

(** ** The level name *)

Lemma open_debug_file_low_level w temp host pid_ current :
  temp <= NCCL_LOG_VERSION ->
  open_debug_file w temp host pid_ current = Ok current.
Proof.
  intros H. unfold open_debug_file.
  destruct (env_NCCL_DEBUG_FILE w); [| reflexivity].
  replace (temp >? NCCL_LOG_VERSION) with false; [reflexivity |].
  symmetry. destruct (Z.gtb_spec temp NCCL_LOG_VERSION); [lia | reflexivity].
Qed.

(** An absent [NCCL_DEBUG] gives level NONE, and the state is initialized. *)
Lemma absent_level_name_gives_none w st :
  ncclDebugLevel st = -1 ->
  env_NCCL_DEBUG w = None ->
  exists st', ncclDebugInit w st = Ok st' /\ ncclDebugLevel st' = NCCL_LOG_NONE.
Proof.
  intros Hs He. unfold ncclDebugInit. rewrite Hs, He. cbn [Z.eqb negb tempNcclDebugLevel].
  change (negb (-1 =? -1)) with false. cbv iota.
  rewrite open_debug_file_low_level by (unfold NCCL_LOG_NONE, NCCL_LOG_VERSION; lia).
  cbn [bind]. eexists. split; reflexivity.
Qed.

(** C2.  The claim fails for a name that is present and matches none of the
    five: no branch of lines 66-78 assigns [tempNcclDebugLevel], so line 179
    stores -1 again.  The level is not NONE and the state is left
    uninitialized: the next call of [ncclDebugInit] parses the environment
    once more. *)
Theorem unmatched_level_name_keeps_sentinel w st name :
  ncclDebugLevel st = -1 ->
  env_NCCL_DEBUG w = Some name ->
  strcasecmp name (str "VERSION") <> 0 ->
  strcasecmp name (str "WARN") <> 0 ->
  strcasecmp name (str "INFO") <> 0 ->
  strcasecmp name (str "ABORT") <> 0 ->
  strcasecmp name (str "TRACE") <> 0 ->
  exists st',
    ncclDebugInit w st = Ok st'
    /\ ncclDebugLevel st' = -1
    /\ ncclDebugLevel st' <> NCCL_LOG_NONE.
Proof.
  intros Hs He H1 H2 H3 H4 H5.
  assert (Ht : tempNcclDebugLevel (Some name) = -1).
  { unfold tempNcclDebugLevel.
    repeat match goal with
           | |- context [strcasecmp name ?x =? 0] =>
               replace (strcasecmp name x =? 0) with false
                 by (symmetry; apply Z.eqb_neq; assumption)
           end.
    reflexivity. }
  unfold ncclDebugInit at 1. rewrite Hs, He, Ht.
  change (negb (-1 =? -1)) with false. cbv iota.
  rewrite open_debug_file_low_level by (unfold NCCL_LOG_VERSION; lia).
  cbn [bind]. eexists. split; [reflexivity |].
  split; [reflexivity |]. unfold NCCL_LOG_NONE. cbn. lia.
Qed.

Lemma unmatched_level_name_keeps_sentinel_witness :
  exists st',
    ncclDebugInit bogus_world initial_state = Ok st'
    /\ ncclDebugLevel st' = -1
    /\ ncclDebugLevel st' <> NCCL_LOG_NONE.
Proof.
  apply (unmatched_level_name_keeps_sentinel bogus_world initial_state (str "BOGUS"));
    try reflexivity; vm_compute; congruence.
Defined.


(** ** The subsystem list *)

Section CaseFolding.









End CaseFolding.

Section MaskAlgebra.

Lemma subsys_step_add m t : subsys_step false m t = Z.lor m (subsys_mask t).
Proof.
  unfold subsys_step. destruct (Z.eqb_spec (subsys_mask t) 0) as [-> | _].
  - rewrite Z.lor_0_r. reflexivity.
  - reflexivity.
Qed.

Lemma land_not64 m x :
  Z.land m (Z.ones 64) = m -> Z.land m (not64 x) = Z.ldiff m x.
Proof.
  intros Hm. unfold not64, u64.
  rewrite <- Z.land_ones by lia.
  rewrite (Z.land_comm (Z.lnot x)), Z.land_assoc, Hm.
  symmetry. apply Z.ldiff_land.
Qed.

Lemma subsys_step_remove m t :
  Z.land m (Z.ones 64) = m -> subsys_step true m t = Z.ldiff m (subsys_mask t).
Proof.
  intros Hm. unfold subsys_step.
  destruct (Z.eqb_spec (subsys_mask t) 0) as [-> | _].
  - rewrite Z.ldiff_0_r. reflexivity.
  - apply land_not64. assumption.
Qed.

Lemma ldiff_keeps_u64 m x :
  Z.land m (Z.ones 64) = m -> Z.land (Z.ldiff m x) (Z.ones 64) = Z.ldiff m x.
Proof.
  intros Hm. rewrite !Z.ldiff_land.
  rewrite <- Z.land_assoc, (Z.land_comm (Z.lnot x)), Z.land_assoc, Hm.
  reflexivity.
Qed.

Lemma fold_subsys_add toks : forall m,
  fold_left (subsys_step false) toks m = Z.lor m (subsys_union toks).
Proof.
  induction toks as [| t toks IH]; intros m; cbn [fold_left subsys_union fold_right].
  - rewrite Z.lor_0_r. reflexivity.
  - rewrite IH, subsys_step_add, Z.lor_assoc. reflexivity.
Qed.

Lemma fold_subsys_remove toks : forall m,
  Z.land m (Z.ones 64) = m ->
  fold_left (subsys_step true) toks m = Z.ldiff m (subsys_union toks).
Proof.
  induction toks as [| t toks IH]; intros m Hm;
    cbn [fold_left subsys_union fold_right].
  - rewrite Z.ldiff_0_r. reflexivity.
  - rewrite subsys_step_remove by assumption.
    rewrite IH by (apply ldiff_keeps_u64; assumption).
    apply Z.ldiff_ldiff_l.
Qed.

(** Lines 86-129 compute the mask the spec describes. *)
Lemma parse_subsys_spec list : parse_subsys list = subsys_list_spec list.
Proof.
  unfold parse_subsys, subsys_list_spec.
  destruct list as [| c rest]; [reflexivity |].
  destruct (Ascii.eqb c "^"); cbn [tl].
  - rewrite fold_subsys_remove by reflexivity. reflexivity.
  - rewrite fold_subsys_add. apply Z.lor_0_l.
Qed.

End MaskAlgebra.

Lemma ncclDebugInit_mask w st list st' :
  ncclDebugLevel st = -1 ->
  env_NCCL_DEBUG_SUBSYS w = Some list ->
  ncclDebugInit w st = Ok st' ->
  ncclDebugMask st' = parse_subsys list.
Proof.
  intros Hs He. unfold ncclDebugInit. rewrite Hs, He.
  change (negb (-1 =? -1)) with false. cbv iota.
  destruct (open_debug_file _ _ _ _ _) as [file | |]; cbn [bind]; intros H;
    inversion H. reflexivity.
Qed.

Lemma ncclDebugInit_without_file w st :
  ncclDebugLevel st = -1 ->
  env_NCCL_DEBUG_FILE w = None ->
  exists st', ncclDebugInit w st = Ok st'.
Proof.
  intros Hs He. unfold ncclDebugInit, open_debug_file. rewrite Hs, He.
  change (negb (-1 =? -1)) with false. cbv iota. cbn [bind].
  eexists. reflexivity.
Qed.



(** ** numDigits and the identity strings *)

Section DigitCount.

Lemma numDigits_loop_shift fuel : forall n nd,
  numDigits_loop fuel n nd = option_map (Z.add nd) (numDigits_loop fuel n 0).
Proof.
  induction fuel as [| k IH]; intros n nd; cbn [numDigits_loop];
    destruct (n >? 0); cbn [option_map]; try reflexivity;
    try (f_equal; lia).
  rewrite (IH _ (nd + 1)), (IH _ (0 + 1)).
  destruct (numDigits_loop k (Z.quot n 10) 0); cbn [option_map];
    [f_equal; lia | reflexivity].
Qed.

(** Enough fuel: the loop is left after at most as many turns as [n] has
    binary digits. *)
Lemma numDigits_loop_total fuel : forall n nd,
  n < 2 ^ Z.of_nat fuel -> exists d, numDigits_loop fuel n nd = Some d.
Proof.
  induction fuel as [| k IH]; intros n nd Hn; cbn [numDigits_loop].
  - destruct (Z.gtb_spec n 0); [| eexists; reflexivity].
    cbn in Hn. lia.
  - destruct (Z.gtb_spec n 0); [| eexists; reflexivity].
    apply IH. rewrite Nat2Z.inj_succ, Z.pow_succ_r in Hn by lia.
    assert (Z.quot n 10 <= Z.quot n 2) by
      (rewrite !Z.quot_div_nonneg by lia;
       apply Z.div_le_compat_l; lia).
    assert (Z.quot n 2 < 2 ^ Z.of_nat k)
      by (rewrite Z.quot_div_nonneg by lia; apply Z.div_lt_upper_bound; lia).
    lia.
Qed.

Lemma numDigits_fuel_enough n : n < 2 ^ Z.of_nat (numDigits_fuel n).
Proof.
  unfold numDigits_fuel. rewrite Nat2Z.inj_succ.
  destruct (Z_le_gt_dec n 0) as [H | H].
  - assert (0 < 2 ^ Z.succ (Z.of_nat (Z.to_nat (Z.log2 n))))
      by (apply Z.pow_pos_nonneg; lia).
    lia.
  - rewrite Z2Nat.id by apply Z.log2_nonneg.
    apply Z.log2_spec. lia.
Qed.

(** [numDigits] returns for every [n]: its loop never runs out of fuel. *)
Lemma numDigits_returns n :
  numDigits_loop (numDigits_fuel n) n 0 = Some (numDigits n).
Proof.
  unfold numDigits.
  destruct (numDigits_loop_total (numDigits_fuel n) n 0 (numDigits_fuel_enough n))
    as [d ->].
  reflexivity.
Qed.

Lemma numDigits_nonpositive n : n <= 0 -> numDigits n = 0.
Proof.
  intros H. unfold numDigits, numDigits_fuel. cbn [numDigits_loop].
  destruct (Z.gtb_spec n 0); [lia | reflexivity].
Qed.

(** The count does not depend on how much fuel was left over. *)
Lemma numDigits_loop_fuel_indep f : forall g n nd d d',
  numDigits_loop f n nd = Some d ->
  numDigits_loop g n nd = Some d' ->
  d = d'.
Proof.
  induction f as [| k IH]; intros [| g] n nd d d'; cbn [numDigits_loop];
    destruct (n >? 0); try discriminate; try congruence.
  apply IH.
Qed.

Lemma numDigits_loop_value fuel n nd :
  n < 2 ^ Z.of_nat fuel ->
  numDigits_loop fuel n nd = Some (nd + numDigits n).
Proof.
  intros Hn. destruct (numDigits_loop_total fuel n nd Hn) as [d Hd].
  rewrite Hd. f_equal.
  pose proof (numDigits_returns n) as Hr.
  rewrite numDigits_loop_shift in Hd.
  destruct (numDigits_loop fuel n 0) as [d0 |] eqn:E; [| discriminate].
  cbn [option_map] in Hd. inversion Hd.
  rewrite (numDigits_loop_fuel_indep _ _ _ _ _ _ E Hr). reflexivity.
Qed.

(** The loop of the source, as a recurrence. *)
Lemma numDigits_positive n :
  0 < n -> numDigits n = 1 + numDigits (Z.quot n 10).
Proof.
  intros Hn. pose proof (numDigits_returns n) as Hr.
  unfold numDigits_fuel in Hr. cbn [numDigits_loop] in Hr.
  replace (n >? 0) with true in Hr by (symmetry; apply Z.gtb_lt; lia).
  rewrite numDigits_loop_value in Hr.
  - assert (H : 0 + 1 + numDigits (Z.quot n 10) = numDigits n) by congruence.
    lia.
  - rewrite Z2Nat.id by apply Z.log2_nonneg.
    pose proof (Z.log2_spec n Hn) as [_ Hu].
    rewrite Z.pow_succ_r in Hu by apply Z.log2_nonneg.
    assert (Z.quot n 10 <= Z.quot n 2)
      by (rewrite !Z.quot_div_nonneg by lia; apply Z.div_le_compat_l; lia).
    assert (Z.quot n 2 < 2 ^ Z.log2 n)
      by (rewrite Z.quot_div_nonneg by lia; apply Z.div_lt_upper_bound; lia).
    lia.
Qed.

Lemma numDigits_nonneg n : 0 <= numDigits n.
Proof.
  destruct (Z_le_gt_dec n 0) as [H | H].
  - rewrite numDigits_nonpositive by assumption. lia.
  - revert H. induction n using (well_founded_induction (Z.lt_wf 0)).
    intros Hn. rewrite numDigits_positive by lia.
    destruct (Z_le_gt_dec (Z.quot n 10) 0) as [Hq | Hq].
    + rewrite (numDigits_nonpositive _ Hq). lia.
    + assert (0 <= numDigits (Z.quot n 10)); [| lia].
      apply H; [| lia]. split; [lia |]. apply Z.quot_lt; lia.
Qed.

Lemma numDigits_monotone : forall b a, a <= b -> numDigits a <= numDigits b.
Proof.
  intros b. induction b using (well_founded_induction (Z.lt_wf 0)).
  intros a Hab. destruct (Z_le_gt_dec a 0) as [Ha | Ha].
  - rewrite (numDigits_nonpositive _ Ha). apply numDigits_nonneg.
  - rewrite (numDigits_positive a), (numDigits_positive b) by lia.
    assert (numDigits (Z.quot a 10) <= numDigits (Z.quot b 10)); [| lia].
    apply H.
    + split; [apply Z.quot_pos; lia | apply Z.quot_lt; lia].
    + rewrite !Z.quot_div_nonneg by lia. apply Z.div_le_mono; lia.
Qed.

(** As many turns as [decimal] prints digits. *)
Lemma numDigits_loop_digits fuel : forall n nd acc,
  0 < n < 2 ^ Z.of_nat fuel ->
  numDigits_loop fuel n nd = Some (nd + (len (digits fuel n acc) - len acc)).
Proof.
  induction fuel as [| k IH]; intros n nd acc Hn.
  - cbn in Hn. lia.
  - cbn [numDigits_loop digits].
    replace (n >? 0) with true by (symmetry; apply Z.gtb_lt; lia).
    rewrite Nat2Z.inj_succ, Z.pow_succ_r in Hn by lia.
    destruct (Z.ltb_spec n 10) as [Hs | Hs].
    + replace (Z.quot n 10) with 0 by (symmetry; apply Z.quot_small; lia).
      rewrite len_cons.
      destruct k; cbn [numDigits_loop]; change (0 >? 0) with false;
        cbv iota; f_equal; lia.
    + rewrite Z.quot_div_nonneg by lia.
      rewrite (IH (n / 10) (nd + 1) (digit (n mod 10) :: acc)).
      * rewrite len_cons. f_equal. lia.
      * split; [apply Z.div_str_pos; lia |].
        apply Z.div_lt_upper_bound; lia.
Qed.

Lemma numDigits_decimal n : 0 < n -> numDigits n = len (decimal n).
Proof.
  intros Hn. pose proof (numDigits_returns n) as Hr.
  rewrite (numDigits_loop_digits (numDigits_fuel n) n 0 []) in Hr
    by (split; [assumption | apply numDigits_fuel_enough]).
  assert (H : 0 + (len (digits (numDigits_fuel n) n []) - len []) = numDigits n)
    by congruence.
  unfold decimal.
  replace (n <? 0) with false by (symmetry; apply Z.ltb_ge; lia).
  unfold digits_fuel. unfold numDigits_fuel in H.
  change (len []) with 0 in H. lia.
Qed.

Lemma len_repeat c n : len (repeat c n) = Z.of_nat n.
Proof. unfold len. rewrite repeat_length. reflexivity. Qed.

Lemma numDigits_le n : 0 <= n -> numDigits n <= n.
Proof.
  induction n using (well_founded_induction (Z.lt_wf 0)). intros Hn.
  destruct (Z.eq_dec n 0) as [-> | Hz]; [reflexivity |].
  rewrite numDigits_positive by lia.
  assert (Hq : Z.quot n 10 < n) by (apply Z.quot_lt; lia).
  assert (Hq0 : 0 <= Z.quot n 10) by (apply Z.quot_pos; lia).
  specialize (H (Z.quot n 10) (conj Hq0 Hq) Hq0). lia.
Qed.

(** Rank and peer count come out as wide as the peer count has digits. *)
Lemma identity_strings_width _rank _nranks st :
  0 < _nranks <= INT_MAX -> 0 <= _rank <= _nranks ->
  len (rank (ncclDebugSetDistributorParams _rank _nranks st)) = numDigits _nranks
  /\ len (nranks (ncclDebugSetDistributorParams _rank _nranks st)) = numDigits _nranks
  /\ nranks (ncclDebugSetDistributorParams _rank _nranks st) = decimal _nranks.
Proof.
  intros Hn Hr. cbn [ncclDebugSetDistributorParams rank nranks].
  unfold ostream_int.
  pose proof (numDigits_nonneg _nranks) as H0.
  pose proof (numDigits_decimal _nranks (proj1 Hn)) as Hd.
  pose proof (numDigits_le _nranks ltac:(lia)) as Hle.
  rewrite u64_small by (unfold INT_MAX in Hn; lia).
  assert (Hrank : len (decimal _rank) <= numDigits _nranks).
  { destruct (Z.eq_dec _rank 0) as [-> | Hz].
    - change (len (decimal 0)) with 1.
      rewrite (numDigits_positive _nranks) by lia.
      pose proof (numDigits_nonneg (Z.quot _nranks 10)). lia.
    - rewrite <- numDigits_decimal by lia. apply numDigits_monotone. lia. }
  rewrite !len_app, !len_repeat. repeat split; try lia.
  rewrite <- Hd. rewrite Z.sub_diag. reflexivity.
Qed.

End DigitCount.

(** C9.  [numDigits] is 0 for every [n <= 0], 1 for 5 and 3 for 128, and
    [ncclDebugSetDistributorParams(8, 128)] stores "008" and "128": both
    strings are as wide as 128 has decimal digits, the rank filled with
    zeros in front.  The same holds for every rank between 0 and a positive
    peer count. *)
Theorem digit_count_and_identity_strings n st :
  n <= 0 ->
  numDigits n = 0
  /\ numDigits 5 = 1
  /\ numDigits 128 = 3
  /\ rank (ncclDebugSetDistributorParams 8 128 st) = str "008"
  /\ nranks (ncclDebugSetDistributorParams 8 128 st) = str "128"
  /\ len (rank (ncclDebugSetDistributorParams 8 128 st)) = numDigits 128
  /\ len (nranks (ncclDebugSetDistributorParams 8 128 st)) = numDigits 128
  /\ rank (ncclDebugSetDistributorParams 8 128 st)
     = repeat "0"%char (Z.to_nat (numDigits 128 - len (decimal 8))) ++ decimal 8
  /\ (forall _rank _nranks,
        0 < _nranks <= INT_MAX -> 0 <= _rank <= _nranks ->
        len (rank (ncclDebugSetDistributorParams _rank _nranks st))
        = numDigits _nranks
        /\ len (nranks (ncclDebugSetDistributorParams _rank _nranks st))
           = numDigits _nranks
        /\ nranks (ncclDebugSetDistributorParams _rank _nranks st)
           = decimal _nranks).
Proof.
  intros Hn. split; [apply numDigits_nonpositive; assumption |].
  do 7 (split; [reflexivity |]).
  intros _rank _nranks H1 H2. apply identity_strings_width; assumption.
Qed.

Lemma digit_count_and_identity_strings_witness :
  numDigits (-7) = 0
  /\ numDigits 5 = 1
  /\ numDigits 128 = 3
  /\ rank (ncclDebugSetDistributorParams 8 128 initial_state) = str "008"
  /\ nranks (ncclDebugSetDistributorParams 8 128 initial_state) = str "128".
Proof.
  destruct (digit_count_and_identity_strings (-7) initial_state ltac:(lia))
    as (H1 & H2 & H3 & H4 & H5 & _).
  repeat split; assumption.
Defined.

(** ** The file-path template *)

Ltac len_arith :=
  repeat rewrite len_app; repeat rewrite len_cons;
  change (len (@nil ascii)) with 0; lia.

Ltac same_buffer :=
  rewrite <- ?app_assoc; cbn [app]; f_equal; f_equal; len_arith.

Section Template.

Lemma char_at_mid a c r : char_at (a ++ c :: r) (len a) = Ok c.
Proof.
  unfold char_at. rewrite len_app, len_cons.
  pose proof (len_nonneg a). pose proof (len_nonneg r).
  replace (0 <=? len a) with true by (symmetry; apply Z.leb_le; lia).
  replace (len a <? len a + (1 + len r)) with true by (symmetry; apply Z.ltb_lt; lia).
  cbn [andb]. unfold len. rewrite Nat2Z.id, app_nth2 by lia.
  rewrite Nat.sub_diag. reflexivity.
Qed.

Lemma char_at_end a : char_at a (len a) = Ok NUL.
Proof.
  unfold char_at. rewrite Z.ltb_irrefl, andb_false_r, Z.eqb_refl. reflexivity.
Qed.

Lemma char_at_past a : char_at a (len a + 1) = Ub (LoadOutOfBounds (len a + 1)).
Proof.
  unfold char_at.
  replace (len a + 1 <? len a) with false by (symmetry; apply Z.ltb_ge; lia).
  replace (len a + 1 =? len a) with false by (symmetry; apply Z.eqb_neq; lia).
  rewrite andb_false_r. reflexivity.
Qed.

Lemma c_string_cons c s :
  c_string (c :: s) = true -> Ascii.eqb c NUL = false /\ c_string s = true.
Proof.
  unfold c_string. cbn [forallb]. rewrite andb_true_iff, negb_true_iff. tauto.
Qed.

Lemma c_string_app a b : c_string (a ++ b) = c_string a && c_string b.
Proof. unfold c_string. apply forallb_app. Qed.

(** Reading back what was stored: the string in front of the first NUL. *)
Lemma c_str_from_known s : forall a rest fuel,
  c_string s = true -> (List.length s <= fuel)%nat ->
  c_str_from fuel (map Some (a ++ s ++ [NUL]) ++ rest) (len a) = Ok s.
Proof.
  induction s as [| c s IH]; intros a rest fuel Hs Hfuel.
  - cbn [app]. destruct fuel; cbn [c_str_from];
      rewrite (load_known a [] rest NUL); reflexivity.
  - destruct fuel as [| k]; [cbn in Hfuel; lia |].
    apply c_string_cons in Hs. destruct Hs as [Hc Hs].
    cbn [c_str_from]. cbn [app].
    rewrite (load_known a (s ++ [NUL]) rest c). cbn [bind]. rewrite Hc.
    replace (len a + 1) with (len (a ++ [c])) by (rewrite len_app; reflexivity).
    replace (a ++ c :: s ++ [NUL]) with ((a ++ [c]) ++ s ++ [NUL])
      by (rewrite <- app_assoc; reflexivity).
    rewrite IH by (cbn in Hfuel; lia || assumption). reflexivity.
Qed.

Variables (host : text) (pid_ : Z) (env : text).

Hypothesis host_short : len host < PATH_MAX.
Hypothesis pid_short : len (decimal pid_) < PATH_MAX.
Hypothesis env_short : len env <= PATH_MAX.

(** One [snprintf] of the loop, for a text that fits. *)
Lemma snprintf_fits out pad s :
  len s < PATH_MAX -> (List.length s < List.length pad)%nat ->
  snprintf (map Some out ++ pad) (len out) PATH_MAX s
  = Ok (map Some (out ++ s) ++ Some NUL :: skipn (S (List.length s)) pad, len s).
Proof.
  intros Hs Hpad. rewrite snprintf_next.
  - replace (Z.to_nat (Z.min (len s) (PATH_MAX - 1))) with (List.length s)
      by (unfold len in *; lia).
    rewrite firstn_all. rewrite !map_app, <- !app_assoc. reflexivity.
  - unfold PATH_MAX. lia.
  - unfold len in *. lia.
Qed.

(** The loop of lines 145-165 from any point of the template on: it writes
    what the grammar says for the rest of the template, or, when the rest
    ends in a lone [%], goes on to read the byte behind the terminator. *)
Lemma debugFn_loop_spec : forall fuel remaining consumed out pad,
  env = consumed ++ remaining ->
  c_string remaining = true ->
  (List.length remaining <= fuel)%nat ->
  (List.length (expand_spec remaining host pid_) < List.length pad)%nat ->
  if dangling remaining
  then debugFn_loop fuel env host pid_ (len consumed) (map Some out ++ pad) (len out)
       = Ub (LoadOutOfBounds (len env + 1))
  else exists pad',
      (List.length pad' + List.length (expand_spec remaining host pid_)
       = List.length pad)%nat
      /\ debugFn_loop fuel env host pid_ (len consumed) (map Some out ++ pad) (len out)
         = Ok (map Some (out ++ expand_spec remaining host pid_) ++ pad',
               len out + len (expand_spec remaining host pid_)).
Proof.
  induction fuel as [| k IH]; intros remaining consumed out pad Henv Hcs Hfuel Hroom.
  - destruct remaining; [| cbn in Hfuel; lia].
    cbn [dangling expand_spec]. exists pad. rewrite app_nil_r in *.
    split; [cbn; lia |]. cbn [debugFn_loop]. subst env.
    rewrite char_at_end. cbn [bind]. rewrite Z.add_0_r. reflexivity.
  - destruct remaining as [| ch r].
    { cbn [dangling expand_spec]. exists pad. rewrite app_nil_r in *.
      split; [cbn; lia |]. cbn [debugFn_loop]. subst env.
      rewrite char_at_end. cbn [bind]. rewrite Z.add_0_r. reflexivity. }
    apply c_string_cons in Hcs. destruct Hcs as [Hch Hcs].
    assert (Hlt : len consumed < PATH_MAX).
    { subst env. rewrite len_app, len_cons in env_short.
      pose proof (len_nonneg r). lia. }
    cbn [debugFn_loop].
    assert (Hat : char_at env (len consumed) = Ok ch)
      by (subst env; apply char_at_mid).
    rewrite Hat. cbn [bind]. rewrite Hch.
    replace (len consumed <? PATH_MAX) with true by (symmetry; apply Z.ltb_lt; lia).
    cbn [negb andb].
    destruct (Ascii.eqb ch "%") eqn:Epct; cbn [negb].
    + (* a specifier *)
      destruct r as [| x r'].
      * (* the template ends here *)
        cbn [dangling]. rewrite Epct.
        assert (Hlen : len env = len consumed + 1)
          by (subst env; rewrite len_app; reflexivity).
        rewrite <- Hlen, char_at_end. cbn [bind].
        change (Ascii.eqb NUL "%") with false.
        change (Ascii.eqb NUL "h") with false.
        change (Ascii.eqb NUL "p") with false. cbv iota.
        cbn [expand_spec] in Hroom. rewrite Epct in Hroom.
        destruct pad as [| p0 [| p1 pad]]; try (cbn in Hroom; lia).
        rewrite store_next. cbn [bind].
        replace (len env + 1 - 1) with (len env) by lia.
        rewrite char_at_end. cbn [bind].
        replace (len out + 1) with (len (out ++ ["%"%char]))
          by (rewrite len_app; reflexivity).
        rewrite store_next. cbn [bind].
        destruct k; cbn [debugFn_loop]; rewrite char_at_past; reflexivity.
      * (* a character follows *)
        apply c_string_cons in Hcs. destruct Hcs as [Hx Hcs].
        assert (Hat2 : char_at env (len consumed + 1) = Ok x).
        { subst env.
          replace (consumed ++ ch :: x :: r') with ((consumed ++ [ch]) ++ x :: r')
            by (rewrite <- app_assoc; reflexivity).
          replace (len consumed + 1) with (len (consumed ++ [ch]))
            by (rewrite len_app; reflexivity).
          apply char_at_mid. }
        assert (Henv2 : env = (consumed ++ [ch; x]) ++ r')
          by (subst env; rewrite <- app_assoc; reflexivity).
        assert (Hc2 : len consumed + 1 + 1 = len (consumed ++ [ch; x]))
          by (rewrite len_app; change (len [ch; x]) with 2; lia).
        rewrite Hat2. cbn [bind].
        cbn [dangling expand_spec]. rewrite Epct.
        cbn [expand_spec] in Hroom. rewrite Epct in Hroom.
        cbn [List.length] in Hfuel.
        destruct (Ascii.eqb x "%") eqn:E1.
        { (* %% *)
          destruct pad as [| p0 pad]; [cbn in Hroom; lia |].
          rewrite store_next. cbn [bind]. rewrite Hc2.
          replace (len out + 1) with (len (out ++ ["%"%char]))
            by (rewrite len_app; reflexivity).
          specialize (IH r' (consumed ++ [ch; x]) (out ++ ["%"%char]) pad
                         Henv2 Hcs ltac:(lia) ltac:(cbn in Hroom; lia)).
          destruct (dangling r'); [exact IH |].
          destruct IH as (pad' & Hl & IH). exists pad'.
          split; [cbn [List.length] in *; lia |].
          rewrite IH. same_buffer. }
        destruct (Ascii.eqb x "h") eqn:E2.
        { (* %h *)
          rewrite length_app in Hroom.
          rewrite snprintf_fits by (assumption || lia). cbn [bind]. rewrite Hc2.
          replace (len out + len host) with (len (out ++ host))
            by (rewrite len_app; reflexivity).
          specialize (IH r' (consumed ++ [ch; x]) (out ++ host)
                         (Some NUL :: skipn (S (List.length host)) pad)
                         Henv2 Hcs ltac:(lia)
                         ltac:(cbn [List.length]; rewrite length_skipn; lia)).
          destruct (dangling r'); [exact IH |].
          destruct IH as (pad' & Hl & IH). exists pad'.
          cbn [List.length] in Hl. rewrite length_skipn in Hl.
          split; [rewrite length_app; lia |].
          rewrite IH. same_buffer. }
        destruct (Ascii.eqb x "p") eqn:E3.
        { (* %p *)
          rewrite length_app in Hroom.
          rewrite snprintf_fits by (assumption || lia). cbn [bind]. rewrite Hc2.
          replace (len out + len (decimal pid_)) with (len (out ++ decimal pid_))
            by (rewrite len_app; reflexivity).
          specialize (IH r' (consumed ++ [ch; x]) (out ++ decimal pid_)
                         (Some NUL :: skipn (S (List.length (decimal pid_))) pad)
                         Henv2 Hcs ltac:(lia)
                         ltac:(cbn [List.length]; rewrite length_skipn; lia)).
          destruct (dangling r'); [exact IH |].
          destruct IH as (pad' & Hl & IH). exists pad'.
          cbn [List.length] in Hl. rewrite length_skipn in Hl.
          split; [rewrite length_app; lia |].
          rewrite IH. same_buffer. }
        (* any other character *)
        destruct pad as [| p0 [| p1 pad]]; try (cbn in Hroom; lia).
        rewrite store_next. cbn [bind].
        replace (len consumed + 1 + 1 - 1) with (len consumed + 1) by lia.
        rewrite Hat2. cbn [bind].
        replace (len out + 1) with (len (out ++ ["%"%char]))
          by (rewrite len_app; reflexivity).
        rewrite store_next. cbn [bind]. rewrite Hc2.
        replace (len out + 2) with (len ((out ++ ["%"%char]) ++ [x]))
          by (rewrite !len_app; change (len ["%"%char]) with 1;
              change (len [x]) with 1; lia).
        specialize (IH r' (consumed ++ [ch; x]) ((out ++ ["%"%char]) ++ [x]) pad
                       Henv2 Hcs ltac:(lia) ltac:(cbn in Hroom; lia)).
        destruct (dangling r'); [exact IH |].
        destruct IH as (pad' & Hl & IH). exists pad'.
        split; [cbn [List.length] in *; lia |].
        rewrite IH. same_buffer.
    + (* an ordinary character *)
      replace (len consumed + 1 - 1) with (len consumed) by lia.
      rewrite Hat. cbn [bind].
      cbn [dangling expand_spec]. rewrite Epct.
      cbn [expand_spec] in Hroom. rewrite Epct in Hroom.
      destruct pad as [| p0 pad]; [cbn in Hroom; lia |].
      rewrite store_next. cbn [bind].
      assert (Henv1 : env = (consumed ++ [ch]) ++ r)
        by (subst env; rewrite <- app_assoc; reflexivity).
      replace (len consumed + 1) with (len (consumed ++ [ch]))
        by (rewrite len_app; reflexivity).
      replace (len out + 1) with (len (out ++ [ch]))
        by (rewrite len_app; reflexivity).
      specialize (IH r (consumed ++ [ch]) (out ++ [ch]) pad
                     Henv1 Hcs ltac:(cbn in Hfuel; lia) ltac:(cbn in Hroom; lia)).
      destruct (dangling r); [exact IH |].
      destruct IH as (pad' & Hl & IH). exists pad'.
      split; [cbn [List.length] in *; lia |].
      rewrite IH. same_buffer.
Qed.

End Template.

Section Decimal.

Lemma digit_not_nul d : 0 <= d < 10 -> Ascii.eqb (digit d) NUL = false.
Proof.
  intros H. destruct d as [| p | p]; [reflexivity | | lia].
  do 4 (destruct p as [p | p |]; try lia; try reflexivity).
Qed.

Lemma digits_c_string fuel : forall n acc,
  0 <= n -> c_string acc = true -> c_string (digits fuel n acc) = true.
Proof.
  induction fuel as [| k IH]; intros n acc Hn Hacc; cbn [digits]; [assumption |].
  destruct (Z.ltb_spec n 10).
  - unfold c_string. cbn [forallb]. rewrite digit_not_nul by lia. exact Hacc.
  - apply IH.
    + apply Z.div_pos; lia.
    + unfold c_string. cbn [forallb].
      rewrite digit_not_nul by (apply Z.mod_pos_bound; lia). exact Hacc.
Qed.

Lemma decimal_c_string n : c_string (decimal n) = true.
Proof.
  unfold decimal. destruct (Z.ltb_spec n 0).
  - change (c_string ("-"%char :: ?s)) with (c_string s).
    apply digits_c_string; [lia | reflexivity].
  - apply digits_c_string; [lia | reflexivity].
Qed.

Lemma digits_length fuel : forall n acc,
  (List.length (digits fuel n acc) <= fuel + List.length acc)%nat.
Proof.
  induction fuel as [| k IH]; intros n acc; cbn [digits]; [lia |].
  destruct (n <? 10); [cbn [List.length]; lia |].
  specialize (IH (n / 10) (digit (n mod 10) :: acc)). cbn [List.length] in IH. lia.
Qed.

(** An [int] prints in far fewer than [PATH_MAX] bytes. *)
Lemma decimal_short n : - 2 ^ 31 <= n < 2 ^ 31 -> len (decimal n) < PATH_MAX.
Proof.
  intros Hn. unfold decimal, digits_fuel, PATH_MAX.
  assert (Hlog : forall m, m <= 2 ^ 31 -> Z.log2 m <= 31).
  { intros m Hm. change 31 with (Z.log2 (2 ^ 31)). apply Z.log2_le_mono. exact Hm. }
  destruct (Z.ltb_spec n 0).
  - rewrite len_cons. unfold len.
    pose proof (digits_length (S (Z.to_nat (Z.log2 (- n)))) (- n) []) as Hd.
    pose proof (Hlog (- n) ltac:(lia)). pose proof (Z.log2_nonneg (- n)).
    cbn [List.length] in Hd. lia.
  - unfold len.
    pose proof (digits_length (S (Z.to_nat (Z.log2 n))) n []) as Hd.
    pose proof (Hlog n ltac:(lia)). pose proof (Z.log2_nonneg n).
    cbn [List.length] in Hd. lia.
Qed.

End Decimal.

Lemma expand_spec_c_string host pid_ : forall n template,
  (List.length template <= n)%nat ->
  c_string template = true -> c_string host = true ->
  c_string (expand_spec template host pid_) = true.
Proof.
  induction n as [| n IH]; intros template Hn Ht Hh.
  - destruct template; [reflexivity | cbn in Hn; lia].
  - destruct template as [| c rest]; [reflexivity |].
    apply c_string_cons in Ht. destruct Ht as [Hc Ht].
    cbn [expand_spec]. destruct (Ascii.eqb c "%") eqn:E.
    + destruct rest as [| x rest']; [reflexivity |].
      apply c_string_cons in Ht. destruct Ht as [Hx Ht].
      assert (Hrec : c_string (expand_spec rest' host pid_) = true)
        by (apply IH; [cbn in Hn; lia | assumption | assumption]).
      destruct (Ascii.eqb x "%"); [exact Hrec |].
      destruct (Ascii.eqb x "h");
        [rewrite c_string_app, Hh, Hrec; reflexivity |].
      destruct (Ascii.eqb x "p");
        [rewrite c_string_app, decimal_c_string, Hrec; reflexivity |].
      unfold c_string. cbn [forallb]. rewrite Hx. exact Hrec.
    + unfold c_string. cbn [forallb]. rewrite Hc.
      apply IH; [cbn in Hn; lia | assumption | assumption].
Qed.

(** Lines 142-166 and the read of the path: the grammar's text for a
    template whose every [%] has a character behind it, a load past the
    terminator of the template otherwise. *)
Lemma expand_spec_or_overread template host pid_ :
  c_string template = true ->
  c_string host = true ->
  len template <= PATH_MAX ->
  len host < PATH_MAX ->
  - 2 ^ 31 <= pid_ < 2 ^ 31 ->
  len (expand_spec template host pid_) <= PATH_MAX ->
  expand template host pid_
  = if dangling template
    then Ub (LoadOutOfBounds (len template + 1))
    else Ok (expand_spec template host pid_).
Proof.
  intros Ht Hh Hlen Hhost Hpid Hfit.
  pose proof (debugFn_loop_spec host pid_ template Hhost (decimal_short pid_ Hpid)
                Hlen (Z.to_nat PATH_MAX) template [] []
                (repeat (Some NUL) (Z.to_nat (PATH_MAX + 1))) eq_refl Ht
                ltac:(unfold len in Hlen; lia)
                ltac:(rewrite repeat_length; unfold len, PATH_MAX in *; lia))
    as H.
  unfold expand, expand_debugFn. cbn [map app] in H. change (len []) with 0 in H.
  destruct (dangling template).
  - rewrite H. reflexivity.
  - destruct H as (pad' & Hl & H). rewrite H. cbn [bind].
    rewrite repeat_length in Hl.
    destruct pad' as [| x pad'];
      [cbn [List.length] in Hl; unfold len, PATH_MAX in *; lia |].
    rewrite Z.add_0_l, store_next. cbn [bind].
    unfold c_str.
    apply (c_str_from_known (expand_spec template host pid_) [] pad').
    + apply (expand_spec_c_string host pid_ (List.length template)); auto.
    + rewrite length_app, length_map, length_app. lia.
Qed.

(** C7.  The path is expanded by the grammar: for a template that is a C
    string of at most [PATH_MAX] bytes in which every [%] has a character
    behind it, and whose expansion fits in [PATH_MAX] bytes, the string left
    in [debugFn] is [expand_spec]: [%h] the host name, [%p] the process id,
    [%%] a percent sign, any other [%X] both characters, everything else
    copied.  So "log.%h.%p" on host "h1" with pid 42 gives "log.h1.42" (and
    that is the file [ncclDebugInit] opens), "100%%done" gives "100%done"
    and "%q" gives "%q". *)
Theorem template_expansion_follows_grammar template host pid_ :
  c_string template = true ->
  c_string host = true ->
  dangling template = false ->
  len template <= PATH_MAX ->
  len host < 1024 ->
  - 2 ^ 31 <= pid_ < 2 ^ 31 ->
  len (expand_spec template host pid_) <= PATH_MAX ->
  expand template host pid_ = Ok (expand_spec template host pid_)
  /\ expand (str "log.%h.%p") (str "h1") 42 = Ok (str "log.h1.42")
  /\ expand (str "100%%done") host pid_ = Ok (str "100%done")
  /\ expand (str "%q") host pid_ = Ok (str "%q")
  /\ exists st',
       ncclDebugInit file_world initial_state = Ok st'
       /\ ncclDebugFile st' = Opened (str "log.h1.42").
Proof.
  intros Ht Hh Hd Hlen Hhost Hpid Hfit.
  assert (Hhost' : len host < PATH_MAX) by (unfold PATH_MAX; lia).
  split; [| split; [| split; [| split]]].
  - rewrite expand_spec_or_overread by assumption. rewrite Hd. reflexivity.
  - vm_compute. reflexivity.
  - rewrite expand_spec_or_overread; try assumption; try reflexivity.
    + vm_compute. congruence.
    + vm_compute. congruence.
  - rewrite expand_spec_or_overread; try assumption; try reflexivity.
    + vm_compute. congruence.
    + vm_compute. congruence.
  - eexists. split; vm_compute; reflexivity.
Qed.

Lemma template_expansion_follows_grammar_witness :
  expand (str "log.%h.%p") (str "h1") 42
  = Ok (expand_spec (str "log.%h.%p") (str "h1") 42)
  /\ expand_spec (str "log.%h.%p") (str "h1") 42 = str "log.h1.42".
Proof.
  split; [| reflexivity].
  apply (template_expansion_follows_grammar (str "log.%h.%p") (str "h1") 42);
    try reflexivity; vm_compute; try split; congruence.
Defined.

(** C8.  The expansion is not confined to its two arrays.  A template that
    ends in a lone [%] makes line 150 consume the terminator as the
    specifier, and the loop test of line 145 then loads the byte behind the
    terminator.  And only the index into the template is held below
    [PATH_MAX], not the write pointer: a template whose expansion is longer
    than [debugFn] is stored past its end. *)
Theorem template_expansion_leaves_its_arrays template host pid_ :
  c_string template = true ->
  c_string host = true ->
  dangling template = true ->
  len template <= PATH_MAX ->
  len host < 1024 ->
  - 2 ^ 31 <= pid_ < 2 ^ 31 ->
  len (expand_spec template host pid_) <= PATH_MAX ->
  expand template host pid_ = Ub (LoadOutOfBounds (len template + 1))
  /\ ncclDebugInit percent_world initial_state = Ub (LoadOutOfBounds 6)
  /\ expand many_pids (str "h1") 123456 = Ub (StoreOutOfBounds (PATH_MAX + 1)).
Proof.
  intros Ht Hh Hd Hlen Hhost Hpid Hfit.
  assert (Hhost' : len host < PATH_MAX) by (unfold PATH_MAX; lia).
  split; [| split].
  - rewrite expand_spec_or_overread by assumption. rewrite Hd. reflexivity.
  - vm_compute. reflexivity.
  - vm_compute. reflexivity.
Qed.

Lemma template_expansion_leaves_its_arrays_witness :
  expand (str "log.%") (str "h1") 42 = Ub (LoadOutOfBounds 6).
Proof.
  apply (template_expansion_leaves_its_arrays (str "log.%") (str "h1") 42);
    try reflexivity; vm_compute; try split; congruence.
Defined.

(** * Further properties *)

(** ** Digits and identity strings *)

Lemma numDigits_at_least_1 n : 0 < n -> 1 <= numDigits n.
Proof.
  intros Hn. rewrite numDigits_positive by assumption.
  pose proof (numDigits_nonneg (Z.quot n 10)). lia.
Qed.

(** X1.  For a positive [n], [numDigits n] is the number of decimal digits
    of [n]: [n] lies between [10^(d-1)] and [10^d]. *)
Theorem numDigits_is_decimal_width n :
  0 < n ->
  10 ^ (numDigits n - 1) <= n < 10 ^ numDigits n.
Proof.
  induction n using (well_founded_induction (Z.lt_wf 0)). intros Hn.
  rewrite numDigits_positive by assumption.
  rewrite Z.quot_div_nonneg by lia.
  replace (1 + numDigits (n / 10) - 1) with (numDigits (n / 10)) by lia.
  destruct (Z_lt_ge_dec n 10) as [Hs | Hb].
  - rewrite Z.div_small by lia.
    rewrite (numDigits_nonpositive 0) by lia. cbn. lia.
  - assert (Hq : 0 < n / 10) by (apply Z.div_str_pos; lia).
    assert (Hlt : n / 10 < n) by (apply Z.div_lt; lia).
    specialize (H (n / 10) ltac:(lia) Hq).
    pose proof (numDigits_at_least_1 (n / 10) Hq) as Hd.
    pose proof (Z.div_mod n 10 ltac:(lia)) as Hdm.
    pose proof (Z.mod_pos_bound n 10 ltac:(lia)) as Hmod.
    rewrite Z.pow_add_r by lia. change (10 ^ 1) with 10.
    replace (10 ^ numDigits (n / 10)) with (10 * 10 ^ (numDigits (n / 10) - 1)).
    2:{ rewrite <- Z.pow_succ_r by lia. f_equal. lia. }
    replace (10 ^ numDigits (n / 10)) with (10 * 10 ^ (numDigits (n / 10) - 1)) in H.
    2:{ rewrite <- Z.pow_succ_r by lia. f_equal. lia. }
    lia.
Qed.

Lemma numDigits_is_decimal_width_witness :
  10 ^ (numDigits 128 - 1) <= 128 < 10 ^ numDigits 128.
Proof. apply (numDigits_is_decimal_width 128). lia. Defined.

(** X2.  [ncclDebugSetDistributorParams] pads and never cuts: the rank
    string is the decimal rank behind as many zeros as it is short of the
    digit count of the peer count, so it is as long as the longer of the
    two; with a peer count of zero or less nothing is padded and both
    strings are the plain decimals. *)
Theorem identity_strings_pad_never_cut _rank _nranks st :
  _nranks <= INT_MAX ->
  rank (ncclDebugSetDistributorParams _rank _nranks st)
  = repeat "0"%char (Z.to_nat (numDigits _nranks - len (decimal _rank)))
    ++ decimal _rank
  /\ len (rank (ncclDebugSetDistributorParams _rank _nranks st))
     = Z.max (numDigits _nranks) (len (decimal _rank))
  /\ (_nranks <= 0 ->
      rank (ncclDebugSetDistributorParams _rank _nranks st) = decimal _rank
      /\ nranks (ncclDebugSetDistributorParams _rank _nranks st) = decimal _nranks).
Proof.
  intros Hn. cbn [ncclDebugSetDistributorParams rank nranks]. unfold ostream_int.
  pose proof (numDigits_nonneg _nranks) as H0.
  assert (Hsmall : numDigits _nranks < 2 ^ 64).
  { destruct (Z_le_gt_dec _nranks 0) as [Hz | Hp].
    - rewrite numDigits_nonpositive by assumption. lia.
    - pose proof (numDigits_le _nranks ltac:(lia)). unfold INT_MAX in Hn. lia. }
  rewrite u64_small by lia.
  split; [reflexivity |]. split.
  - rewrite len_app, len_repeat. pose proof (len_nonneg (decimal _rank)). lia.
  - intros Hz. rewrite numDigits_nonpositive by assumption.
    pose proof (len_nonneg (decimal _rank)). pose proof (len_nonneg (decimal _nranks)).
    replace (Z.to_nat (0 - len (decimal _rank))) with 0%nat by lia.
    replace (Z.to_nat (0 - len (decimal _nranks))) with 0%nat by lia.
    split; reflexivity.
Qed.

Lemma identity_strings_pad_never_cut_witness :
  rank (ncclDebugSetDistributorParams 1234 16 initial_state) = str "1234"
  /\ rank (ncclDebugSetDistributorParams 3 0 initial_state) = str "3".
Proof.
  split.
  - destruct (identity_strings_pad_never_cut 1234 16 initial_state ltac:(vm_compute; congruence))
      as (H & _). rewrite H. reflexivity.
  - destruct (identity_strings_pad_never_cut 3 0 initial_state ltac:(vm_compute; congruence))
      as (_ & _ & H). apply H. lia.
Defined.

(** ** Names of levels *)

Lemma code_inj a b : code a = code b -> a = b.
Proof.
  unfold code. intros H. apply Nat2Z.inj in H.
  rewrite <- (ascii_nat_embedding a), <- (ascii_nat_embedding b), H. reflexivity.
Qed.

Lemma tolower_not_nul c : Ascii.eqb c NUL = false -> code (tolower c) <> 0.
Proof.
  destruct c as [[] [] [] [] [] [] [] []]; intros H;
    vm_compute in H; try discriminate H; vm_compute; discriminate.
Qed.

(** Two C strings compare equal exactly when they agree up to case. *)
Lemma strcasecmp_zero a : forall b,
  c_string a = true -> c_string b = true ->
  (strcasecmp a b = 0 <-> map tolower a = map tolower b).
Proof.
  induction a as [| x a IH]; intros [| y b] Ha Hb; cbn [strcasecmp map].
  - tauto.
  - apply c_string_cons in Hb. destruct Hb as [Hy _].
    pose proof (tolower_not_nul y Hy). split; [lia | discriminate].
  - apply c_string_cons in Ha. destruct Ha as [Hx _].
    pose proof (tolower_not_nul x Hx). split; [lia | discriminate].
  - apply c_string_cons in Ha. destruct Ha as [_ Ha].
    apply c_string_cons in Hb. destruct Hb as [_ Hb].
    destruct (Z.eqb_spec (code (tolower x)) (code (tolower y))) as [E | E].
    + apply code_inj in E. rewrite E, (IH b Ha Hb).
      split; [intros ->; reflexivity | intros H; inversion H; reflexivity].
    + split; [lia |]. intros H. inversion H as [[H1 H2]].
      rewrite H1 in E. congruence.
Qed.

Lemma strcasecmp_test s name :
  c_string s = true -> c_string name = true ->
  (strcasecmp s name =? 0) = true <-> map tolower s = map tolower name.
Proof.
  intros Hs Hn. rewrite Z.eqb_eq. apply strcasecmp_zero; assumption.
Qed.

(** X3.  A level name selects a level exactly when it is that name up to
    the case of its letters; every other present name leaves -1. *)
Theorem level_name_selects_level s :
  c_string s = true ->
  (tempNcclDebugLevel (Some s) = NCCL_LOG_VERSION <-> map tolower s = str "version")
  /\ (tempNcclDebugLevel (Some s) = NCCL_LOG_WARN <-> map tolower s = str "warn")
  /\ (tempNcclDebugLevel (Some s) = NCCL_LOG_INFO <-> map tolower s = str "info")
  /\ (tempNcclDebugLevel (Some s) = NCCL_LOG_ABORT <-> map tolower s = str "abort")
  /\ (tempNcclDebugLevel (Some s) = NCCL_LOG_TRACE <-> map tolower s = str "trace")
  /\ (tempNcclDebugLevel (Some s) = -1
      <-> ~ In (map tolower s)
               [str "version"; str "warn"; str "info"; str "abort"; str "trace"]).
Proof.
  intros Hs.
  pose proof (strcasecmp_test s (str "VERSION") Hs eq_refl) as H1.
  pose proof (strcasecmp_test s (str "WARN") Hs eq_refl) as H2.
  pose proof (strcasecmp_test s (str "INFO") Hs eq_refl) as H3.
  pose proof (strcasecmp_test s (str "ABORT") Hs eq_refl) as H4.
  pose proof (strcasecmp_test s (str "TRACE") Hs eq_refl) as H5.
  change (map tolower (str "VERSION")) with (str "version") in H1.
  change (map tolower (str "WARN")) with (str "warn") in H2.
  change (map tolower (str "INFO")) with (str "info") in H3.
  change (map tolower (str "ABORT")) with (str "abort") in H4.
  change (map tolower (str "TRACE")) with (str "trace") in H5.
  unfold tempNcclDebugLevel.
  unfold NCCL_LOG_VERSION, NCCL_LOG_WARN, NCCL_LOG_INFO, NCCL_LOG_ABORT, NCCL_LOG_TRACE.
  cbn [In].
  destruct (strcasecmp s (str "VERSION") =? 0);
    [pose proof (proj1 H1 eq_refl) as E; rewrite E;
     repeat split; intros; try discriminate; try reflexivity; try lia;
     try (exfalso; tauto) |].
  destruct (strcasecmp s (str "WARN") =? 0);
    [pose proof (proj1 H2 eq_refl) as E; rewrite E;
     repeat split; intros; try discriminate; try reflexivity; try lia;
     try (exfalso; tauto) |].
  destruct (strcasecmp s (str "INFO") =? 0);
    [pose proof (proj1 H3 eq_refl) as E; rewrite E;
     repeat split; intros; try discriminate; try reflexivity; try lia;
     try (exfalso; tauto) |].
  destruct (strcasecmp s (str "ABORT") =? 0);
    [pose proof (proj1 H4 eq_refl) as E; rewrite E;
     repeat split; intros; try discriminate; try reflexivity; try lia;
     try (exfalso; tauto) |].
  destruct (strcasecmp s (str "TRACE") =? 0);
    [pose proof (proj1 H5 eq_refl) as E; rewrite E;
     repeat split; intros; try discriminate; try reflexivity; try lia;
     try (exfalso; tauto) |].
  assert (N1 : map tolower s <> str "version") by (intros E; apply H1 in E; discriminate).
  assert (N2 : map tolower s <> str "warn") by (intros E; apply H2 in E; discriminate).
  assert (N3 : map tolower s <> str "info") by (intros E; apply H3 in E; discriminate).
  assert (N4 : map tolower s <> str "abort") by (intros E; apply H4 in E; discriminate).
  assert (N5 : map tolower s <> str "trace") by (intros E; apply H5 in E; discriminate).
  repeat split; intros; try lia; try congruence.
  intuition congruence.
Qed.

Lemma level_name_selects_level_witness :
  tempNcclDebugLevel (Some (str "Trace")) = NCCL_LOG_TRACE
  /\ tempNcclDebugLevel (Some (str "INFO ")) = -1.
Proof.
  destruct (level_name_selects_level (str "Trace") eq_refl) as (_ & _ & _ & _ & H & _).
  destruct (level_name_selects_level (str "INFO ") eq_refl) as (_ & _ & _ & _ & _ & H').
  split.
  - apply H. reflexivity.
  - apply H'. cbn [In]. intros [E | [E | [E | [E | [E | []]]]]]; vm_compute in E; congruence.
Defined.

(** ** Initialization *)

(** What a run of lines 64-179 stores. *)
Lemma ncclDebugInit_fields w st st' :
  ncclDebugLevel st = -1 ->
  ncclDebugInit w st = Ok st' ->
  ncclDebugLevel st' = tempNcclDebugLevel (env_NCCL_DEBUG w)
  /\ pid st' = os_pid w
  /\ hostname st' = os_hostname w
  /\ ncclEpoch st' = os_steady_now w
  /\ rank st' = rank st
  /\ nranks st' = nranks st
  /\ ncclLastError st' = ncclLastError st
  /\ written st' = written st.
Proof.
  intros Hs. unfold ncclDebugInit. rewrite Hs.
  change (negb (-1 =? -1)) with false. cbv iota.
  destruct (open_debug_file _ _ _ _ _) as [file | |]; cbn [bind]; intros H;
    inversion H. cbn. repeat split; reflexivity.
Qed.

Lemma ncclDebugInit_initialized w st :
  ncclDebugLevel st <> -1 -> ncclDebugInit w st = Ok st.
Proof.
  intros H. unfold ncclDebugInit.
  replace (ncclDebugLevel st =? -1) with false by (symmetry; apply Z.eqb_neq; assumption).
  reflexivity.
Qed.

(** X4.  After an initialization with an absent or recognized level name
    the level is the parsed one, and [ncclDebugInit] has become a no-op:
    whatever the environment holds later, a further call returns the same
    state. *)
Theorem ncclDebugInit_runs_once w w' st st' :
  ncclDebugLevel st = -1 ->
  0 <= tempNcclDebugLevel (env_NCCL_DEBUG w) ->
  ncclDebugInit w st = Ok st' ->
  ncclDebugLevel st' = tempNcclDebugLevel (env_NCCL_DEBUG w)
  /\ ncclDebugInit w' st' = Ok st'.
Proof.
  intros Hs Ht Hinit.
  destruct (ncclDebugInit_fields w st st' Hs Hinit) as (Hl & _).
  split; [exact Hl |]. apply ncclDebugInit_initialized. lia.
Qed.

Lemma ncclDebugInit_runs_once_witness :
  exists st',
    ncclDebugInit sample_world initial_state = Ok st'
    /\ ncclDebugLevel st' = NCCL_LOG_INFO
    /\ ncclDebugInit bogus_world st' = Ok st'.
Proof.
  destruct (ncclDebugInit_without_file sample_world initial_state eq_refl eq_refl)
    as [st' H].
  destruct (ncclDebugInit_runs_once sample_world bogus_world initial_state st'
              eq_refl ltac:(vm_compute; congruence) H) as [H1 H2].
  exists st'. repeat split; assumption.
Defined.

(** X5.  Unless the parsed level is above VERSION, [NCCL_DEBUG_FILE] is not
    even looked at: the initialization returns, whatever the template is,
    and the sink stays the one it was. *)
Theorem debug_file_ignored_up_to_version w st :
  ncclDebugLevel st = -1 ->
  tempNcclDebugLevel (env_NCCL_DEBUG w) <= NCCL_LOG_VERSION ->
  exists st',
    ncclDebugInit w st = Ok st'
    /\ ncclDebugFile st' = ncclDebugFile st
    /\ ncclDebugLevel st' = tempNcclDebugLevel (env_NCCL_DEBUG w).
Proof.
  intros Hs Ht. unfold ncclDebugInit. rewrite Hs.
  change (negb (-1 =? -1)) with false. cbv iota.
  rewrite open_debug_file_low_level by assumption. cbn [bind].
  eexists. repeat split; reflexivity.
Qed.

Lemma debug_file_ignored_up_to_version_witness :
  exists st',
    ncclDebugInit version_world initial_state = Ok st'
    /\ ncclDebugFile st' = Stdout
    /\ ncclDebugLevel st' = NCCL_LOG_VERSION.
Proof.
  apply (debug_file_ignored_up_to_version version_world initial_state).
  - reflexivity.
  - vm_compute. congruence.
Defined.

(** The array [debugFn] after lines 142-166, for a template the grammar
    covers. *)
Lemma expand_debugFn_spec template host pid_ :
  c_string template = true ->
  dangling template = false ->
  len template <= PATH_MAX ->
  len host < PATH_MAX ->
  - 2 ^ 31 <= pid_ < 2 ^ 31 ->
  len (expand_spec template host pid_) <= PATH_MAX ->
  exists pad,
    expand_debugFn template host pid_
    = Ok (map Some (expand_spec template host pid_ ++ [NUL]) ++ pad)
    /\ (List.length (expand_spec template host pid_) + 1 + List.length pad
        = Z.to_nat (PATH_MAX + 1))%nat.
Proof.
  intros Ht Hd Hlen Hhost Hpid Hfit.
  pose proof (debugFn_loop_spec host pid_ template Hhost (decimal_short pid_ Hpid)
                Hlen (Z.to_nat PATH_MAX) template [] []
                (repeat (Some NUL) (Z.to_nat (PATH_MAX + 1))) eq_refl Ht
                ltac:(unfold len in Hlen; lia)
                ltac:(rewrite repeat_length; unfold len, PATH_MAX in *; lia))
    as H.
  rewrite Hd in H. destruct H as (pad' & Hl & H).
  unfold expand_debugFn. cbn [map app] in H. change (len []) with 0 in H.
  rewrite H. cbn [bind]. rewrite repeat_length in Hl.
  destruct pad' as [| x pad'];
    [cbn [List.length] in Hl; unfold len, PATH_MAX in *; lia |].
  rewrite Z.add_0_l, store_next. exists pad'. split; [reflexivity |].
  cbn [List.length] in Hl. lia.
Qed.

Lemma load_first c s rest : load (map Some (c :: s) ++ rest) 0 = Ok c.
Proof. exact (load_known [] s rest c). Qed.

Lemma c_str_known s rest :
  c_string s = true -> c_str (map Some (s ++ [NUL]) ++ rest) = Ok s.
Proof.
  intros Hs. unfold c_str.
  apply (c_str_from_known s [] rest); [assumption |].
  rewrite length_app, length_map, length_app. lia.
Qed.

(** X6.  With a level above VERSION and a template the grammar covers, the
    sink becomes the file of the expanded path when that path is not empty
    and [fopen] succeeds; otherwise the sink stays the one it was, without
    any error. *)
Theorem debug_file_selection w st template :
  ncclDebugLevel st = -1 ->
  env_NCCL_DEBUG_FILE w = Some template ->
  NCCL_LOG_VERSION < tempNcclDebugLevel (env_NCCL_DEBUG w) ->
  c_string template = true ->
  c_string (os_hostname w) = true ->
  dangling template = false ->
  len template <= PATH_MAX ->
  len (os_hostname w) < 1024 ->
  - 2 ^ 31 <= os_pid w < 2 ^ 31 ->
  len (expand_spec template (os_hostname w) (os_pid w)) <= PATH_MAX ->
  exists st',
    ncclDebugInit w st = Ok st'
    /\ ncclDebugFile st'
       = match expand_spec template (os_hostname w) (os_pid w) with
         | [] => ncclDebugFile st
         | path => if os_fopen w path then Opened path else ncclDebugFile st
         end.
Proof.
  intros Hs He Hlv Ht Hh Hd Hlen Hhost Hpid Hfit.
  assert (Hhost' : len (os_hostname w) < PATH_MAX) by (unfold PATH_MAX; lia).
  destruct (expand_debugFn_spec template (os_hostname w) (os_pid w)
              Ht Hd Hlen Hhost' Hpid Hfit) as (pad & Hx & Hpad).
  pose proof (expand_spec_c_string (os_hostname w) (os_pid w)
                (List.length template) template (le_n _) Ht Hh) as Hcs.
  unfold ncclDebugInit, open_debug_file. rewrite Hs, He.
  change (negb (-1 =? -1)) with false. cbv iota.
  replace (tempNcclDebugLevel (env_NCCL_DEBUG w) >? NCCL_LOG_VERSION) with true
    by (symmetry; apply Z.gtb_lt; lia).
  rewrite Hx. cbn [bind].
  destruct (expand_spec template (os_hostname w) (os_pid w)) as [| c path] eqn:E.
  - cbn [app]. rewrite load_first. cbn [bind].
    change (Ascii.eqb NUL NUL) with true. cbn [negb bind].
    eexists. split; reflexivity.
  - pose proof (c_str_known (c :: path) pad Hcs) as Hstr.
    cbn [app] in *. rewrite load_first. cbn [bind].
    pose proof (c_string_cons c path Hcs) as [Hc _]. rewrite Hc. cbn [negb].
    rewrite Hstr. cbn [bind]. destruct (os_fopen w (c :: path)); cbn [bind];
      eexists; split; reflexivity.
Qed.

Lemma debug_file_selection_witness :
  (exists st',
      ncclDebugInit file_world initial_state = Ok st'
      /\ ncclDebugFile st' = Opened (str "log.h1.42"))
  /\ (exists st',
         ncclDebugInit readonly_world initial_state = Ok st'
         /\ ncclDebugFile st' = Stdout).
Proof.
  split.
  - apply (debug_file_selection file_world initial_state (str "log.%h.%p"));
      try reflexivity; vm_compute; try split; congruence.
  - apply (debug_file_selection readonly_world initial_state (str "log.%h.%p"));
      try reflexivity; vm_compute; try split; congruence.
Defined.

(** ** Calls of the logging function *)

(** Lines 207-260 on any state: the lazy initialization, then the rest. *)
Lemma ncclDebugLog_unfold w ck level flags filefunc line message th st :
  ncclDebugLog w ck level flags filefunc line message th st
  = st1 <- (if ncclDebugLevel st =? -1 then ncclDebugInit w st else Ok st) ;;
    filter_and_emit w ck (level_after_override th level)
      (flags_after_override th level flags) filefunc line message th
      (if level_after_override th level =? NCCL_LOG_WARN
       then save_last_error message st1 else st1).
Proof.
  unfold ncclDebugLog.
  destruct (if ncclDebugLevel st =? -1 then ncclDebugInit w st else Ok st)
    as [st0 | f |]; cbn [bind]; try reflexivity.
  fold (overridden th level).
  fold (level_after_override th level). fold (flags_after_override th level flags).
  cbv zeta. rewrite eligible_spec. unfold filter_and_emit.
  destruct (eligible _ _ _); cbn [negb]; [| reflexivity].
  fold (cache_tid ck th).
  set (st1 := if level_after_override th level =? NCCL_LOG_WARN
              then save_last_error message st0 else st0).
  pose proof (write_prefix_then_message w ck (level_after_override th level)
                (flags_after_override th level flags) filefunc line message st1) as H.
  destruct (write_prefix _ _ _ _ _ _ _ _) as [[[b n] st'] | f |]; cbn [bind] in *.
  - rewrite H. destruct (prefix_of _ _ _ _ _ _); reflexivity.
  - destruct (prefix_of _ _ _ _ _ _) as [pre |]; [| discriminate].
    rewrite <- H. reflexivity.
  - destruct (prefix_of _ _ _ _ _ _) as [pre |]; [| discriminate].
    rewrite <- H. reflexivity.
Qed.

(** X7.  Lazy and explicit initialization agree: when [ncclDebugInit]
    leaves an initialized state, a call on the state before does exactly
    what the same call does on the state after. *)
Theorem first_call_initializes w ck level flags filefunc line message th st st1 :
  ncclDebugInit w st = Ok st1 ->
  ncclDebugLevel st1 <> -1 ->
  ncclDebugLog w ck level flags filefunc line message th st
  = ncclDebugLog w ck level flags filefunc line message th st1.
Proof.
  intros Hinit Hl. rewrite !ncclDebugLog_unfold.
  replace (ncclDebugLevel st1 =? -1) with false
    by (symmetry; apply Z.eqb_neq; assumption).
  destruct (Z.eqb_spec (ncclDebugLevel st) (-1)) as [E | E].
  - rewrite Hinit. reflexivity.
  - rewrite ncclDebugInit_initialized in Hinit by assumption.
    inversion Hinit. reflexivity.
Qed.

Lemma first_call_initializes_witness :
  exists st1,
    ncclDebugInit sample_world initial_state = Ok st1
    /\ ncclDebugLog sample_world sample_clock NCCL_LOG_WARN NCCL_INIT
                    (str "f.cc") 12 (str "boom") plain_thread initial_state
       = ncclDebugLog sample_world sample_clock NCCL_LOG_WARN NCCL_INIT
                      (str "f.cc") 12 (str "boom") plain_thread st1.
Proof.
  destruct (ncclDebugInit_without_file sample_world initial_state eq_refl eq_refl)
    as [st1 H].
  exists st1. split; [exact H |].
  apply (first_call_initializes sample_world sample_clock NCCL_LOG_WARN NCCL_INIT
           (str "f.cc") 12 (str "boom") plain_thread initial_state st1 H).
  destruct (ncclDebugInit_fields sample_world initial_state st1 eq_refl H) as [Hl _].
  rewrite Hl. vm_compute. congruence.
Defined.

(** X8.  With [NCCL_DEBUG] absent, unrecognized or VERSION, no call of the
    logger on the uninitialized state writes anything, whatever its level
    and flags: the call returns, the history of writes and the sink are as
    before. *)
Theorem no_output_up_to_version w ck level flags filefunc line message th st :
  ncclDebugLevel st = -1 ->
  tempNcclDebugLevel (env_NCCL_DEBUG w) <= NCCL_LOG_VERSION ->
  0 <= level ->
  exists st' th',
    ncclDebugLog w ck level flags filefunc line message th st = Ok (st', th')
    /\ written st' = written st
    /\ ncclDebugFile st' = ncclDebugFile st.
Proof.
  intros Hs Ht Hlevel.
  destruct (debug_file_ignored_up_to_version w st Hs Ht) as (st1 & Hinit & Hfile & Hl).
  destruct (ncclDebugInit_fields w st st1 Hs Hinit) as (_ & _ & _ & _ & _ & _ & _ & Hw).
  rewrite ncclDebugLog_unfold, Hs. change (-1 =? -1) with true. cbv iota.
  rewrite Hinit. cbn [bind]. unfold filter_and_emit.
  set (l' := level_after_override th level).
  set (f' := flags_after_override th level flags).
  set (st2 := if l' =? NCCL_LOG_WARN then save_last_error message st1 else st1).
  assert (H2 : written st2 = written st /\ ncclDebugFile st2 = ncclDebugFile st
               /\ ncclDebugLevel st2 = ncclDebugLevel st1).
  { unfold st2. destruct (l' =? NCCL_LOG_WARN); repeat split; assumption. }
  destruct H2 as (Hw2 & Hf2 & Hl2).
  destruct (eligible st2 l' f') eqn:E.
  - apply eligible_true in E. destruct E as [E _].
    rewrite Hl2, Hl in E.
    assert (Hrange : 0 <= l' <= 1).
    { unfold l', level_after_override in *.
      destruct (overridden th level);
        unfold NCCL_LOG_INFO, NCCL_LOG_VERSION in *; lia. }
    unfold prefix_of, NCCL_LOG_WARN, NCCL_LOG_INFO, NCCL_LOG_TRACE.
    replace (l' =? 2) with false by (symmetry; apply Z.eqb_neq; lia).
    replace (l' =? 3) with false by (symmetry; apply Z.eqb_neq; lia).
    replace (l' =? 5) with false by (symmetry; apply Z.eqb_neq; lia).
    cbn [andb]. exists st2, (cache_tid ck th). repeat split; assumption.
  - exists st2, th. repeat split; assumption.
Qed.

Lemma no_output_up_to_version_witness :
  exists st' th',
    ncclDebugLog bogus_world sample_clock NCCL_LOG_WARN NCCL_INIT
                 (str "f.cc") 12 (str "boom") plain_thread initial_state
    = Ok (st', th')
    /\ written st' = []
    /\ ncclDebugFile st' = Stdout.
Proof.
  apply (no_output_up_to_version bogus_world sample_clock NCCL_LOG_WARN NCCL_INIT
           (str "f.cc") 12 (str "boom") plain_thread initial_state);
    vm_compute; congruence.
Defined.

(** The assembly returns only when it stays inside [buffer]. *)
Lemma assemble_returns prefix message st st' :
  0 < len prefix <= INT_MAX ->
  len message <= INT_MAX ->
  assemble prefix message st = Ok st' ->
  stays_in_buffer prefix message.
Proof.
  intros Hp Hm H. unfold stays_in_buffer.
  destruct (Z_le_gt_dec (len prefix) sizeof_buffer) as [Hle | Hgt].
  - split; [assumption |]. split; [| assumption].
    intros Heq. rewrite assemble_overrun in H by (assumption || lia). discriminate.
  - rewrite assemble_wild in H by lia. discriminate.
Qed.

(** X9.  A record that passes the filter and has a prefix makes the call
    return exactly when its line stays inside the buffer: the prefix is at
    most 2048 bytes long and prefix and message together are not exactly
    2048 bytes. *)
Theorem call_returns_iff_line_in_bounds
        w ck level flags filefunc line message th st prefix :
  ncclDebugLevel st <> -1 ->
  eligible st (level_after_override th level)
           (flags_after_override th level flags) = true ->
  prefix_of st ck (level_after_override th level)
            (flags_after_override th level flags) filefunc line = Some prefix ->
  len prefix <= INT_MAX ->
  len message <= INT_MAX ->
  (exists st' th',
      ncclDebugLog w ck level flags filefunc line message th st = Ok (st', th'))
  <-> stays_in_buffer prefix message.
Proof.
  intros Hinit Helig Hprefix Hp Hm.
  pose proof (filter_and_emit_prefix_state ck (level_after_override th level)
                (flags_after_override th level flags) filefunc line message st)
    as [E1 E2].
  pose proof (prefix_of_nonempty _ _ _ _ _ _ _ Hprefix) as Hpos.
  rewrite ncclDebugLog_stages by assumption. unfold filter_and_emit.
  rewrite E1, E2, Helig, Hprefix. split.
  - intros (st' & th' & H).
    destruct (assemble prefix message _) as [st2 | |] eqn:E; cbn [bind] in H;
      try discriminate.
    eapply assemble_returns; [| | exact E]; lia.
  - intros (H1 & H2 & H3). rewrite assemble_fits by assumption.
    cbn [bind]. eexists. eexists. reflexivity.
Qed.

Lemma call_returns_iff_line_in_bounds_witness :
  (exists st' th',
      ncclDebugLog sample_world sample_clock NCCL_LOG_INFO NCCL_INIT
                   (str "f.cc") 12 (str "boom") plain_thread sample_state
      = Ok (st', th'))
  /\ ~ (exists st' th',
           ncclDebugLog sample_world sample_clock NCCL_LOG_WARN NCCL_INIT
                        (str "f.cc") 12 filling_message plain_thread sample_state
           = Ok (st', th')).
Proof.
  split.
  - apply (call_returns_iff_line_in_bounds sample_world sample_clock NCCL_LOG_INFO
             NCCL_INIT (str "f.cc") 12 (str "boom") plain_thread sample_state
             (info_prefix sample_state sample_clock (str "f.cc") 12));
      try reflexivity; try (vm_compute; congruence).
    unfold stays_in_buffer. vm_compute. repeat split; congruence.
  - intros H.
    apply (call_returns_iff_line_in_bounds sample_world sample_clock NCCL_LOG_WARN
             NCCL_INIT (str "f.cc") 12 filling_message plain_thread sample_state
             (warn_prefix sample_state sample_clock (str "f.cc") 12)) in H;
      try reflexivity; try (vm_compute; congruence).
    destruct H as (_ & H & _). apply H. vm_compute. reflexivity.
Defined.


Lemma line_of_len prefix message :
  len (line_of prefix message)
  = Z.min (len prefix + len message) (sizeof_buffer - 1) + 1.
Proof.
  unfold line_of. rewrite len_app. unfold len.
  rewrite length_firstn, length_app. cbn [List.length]. unfold sizeof_buffer. lia.
Qed.



(** What lines 219-260 leave alone. *)
Lemma filter_and_emit_frame w ck level flags filefunc line message th st st' th' :
  filter_and_emit w ck level flags filefunc line message th st = Ok (st', th') ->
  ncclDebugMask st' = ncclDebugMask st
  /\ ncclDebugFile st' = ncclDebugFile st
  /\ rank st' = rank st /\ nranks st' = nranks st
  /\ pid st' = pid st /\ hostname st' = hostname st
  /\ ncclEpoch st' = ncclEpoch st
  /\ (ncclDebugLevel st' = ncclDebugLevel st
      \/ (level = NCCL_LOG_WARN /\ ncclParamWarnSetDebugInfo w <> 0
          /\ ncclDebugLevel st' = NCCL_LOG_INFO))
  /\ ncclDebugNoWarn th' = ncclDebugNoWarn th
  /\ (tid th' = tid th \/ (tid th = -1 /\ tid th' = os_gettid ck)).
Proof.
  unfold filter_and_emit. intros H.
  assert (Htid : ncclDebugNoWarn (cache_tid ck th) = ncclDebugNoWarn th
                 /\ (tid (cache_tid ck th) = tid th
                     \/ (tid th = -1 /\ tid (cache_tid ck th) = os_gettid ck))).
  { unfold cache_tid. destruct (Z.eqb_spec (tid th) (-1)); cbn; auto. }
  destruct Htid as [Hn Ht].
  destruct (eligible st level flags);
    [| inversion H; subst; repeat split; auto].
  destruct (prefix_of _ _ _ _ _ _) as [prefix |];
    [| inversion H; subst; repeat split; auto].
  destruct (assemble _ _ _) as [st2 | |] eqn:E; cbn [bind] in H; try discriminate.
  inversion H; subst st' th'. apply assemble_frame in E.
  unfold after_prefix in E.
  destruct (Z.eqb_spec level NCCL_LOG_WARN) as [Hw | Hw];
    destruct (Z.eqb_spec (ncclParamWarnSetDebugInfo w) 0) as [Hz | Hz];
    cbn [andb negb] in E;
    destruct E as [-> | [bytes ->]]; cbn; repeat split; auto.
Qed.

(** X11.  A call on an initialized state that returns changes nothing but
    the last error, the history of writes and possibly the level: mask,
    sink, identity strings, host name, process id and epoch are as before,
    the state stays initialized, the level moves only to INFO and only in a
    WARN call with [NCCL_WARN_ENABLE_DEBUG_INFO] set; the thread keeps its
    [ncclDebugNoWarn] and a thread id once cached is never replaced. *)
Theorem call_frame w ck level flags filefunc line message th st st' th' :
  ncclDebugLevel st <> -1 ->
  ncclDebugLog w ck level flags filefunc line message th st = Ok (st', th') ->
  ncclDebugMask st' = ncclDebugMask st
  /\ ncclDebugFile st' = ncclDebugFile st
  /\ rank st' = rank st /\ nranks st' = nranks st
  /\ pid st' = pid st /\ hostname st' = hostname st
  /\ ncclEpoch st' = ncclEpoch st
  /\ ncclDebugLevel st' <> -1
  /\ (ncclDebugLevel st' = ncclDebugLevel st
      \/ (level = NCCL_LOG_WARN /\ ncclDebugNoWarn th = 0
          /\ ncclParamWarnSetDebugInfo w <> 0
          /\ ncclDebugLevel st' = NCCL_LOG_INFO))
  /\ ncclDebugNoWarn th' = ncclDebugNoWarn th
  /\ (tid th <> -1 -> tid th' = tid th).
Proof.
  intros Hinit H. rewrite ncclDebugLog_stages in H by assumption.
  apply filter_and_emit_frame in H.
  set (st1 := if level_after_override th level =? NCCL_LOG_WARN
              then save_last_error message st else st) in *.
  assert (Hst1 : ncclDebugMask st1 = ncclDebugMask st
                 /\ ncclDebugFile st1 = ncclDebugFile st
                 /\ rank st1 = rank st /\ nranks st1 = nranks st
                 /\ pid st1 = pid st /\ hostname st1 = hostname st
                 /\ ncclEpoch st1 = ncclEpoch st
                 /\ ncclDebugLevel st1 = ncclDebugLevel st)
    by (unfold st1; destruct (_ =? NCCL_LOG_WARN); repeat split; reflexivity).
  destruct Hst1 as (A1 & A2 & A3 & A4 & A5 & A6 & A7 & A8).
  destruct H as (B1 & B2 & B3 & B4 & B5 & B6 & B7 & B8 & B9 & B10).
  rewrite A1 in B1. rewrite A2 in B2. rewrite A3 in B3. rewrite A4 in B4.
  rewrite A5 in B5. rewrite A6 in B6. rewrite A7 in B7. rewrite A8 in B8.
  do 7 (split; [assumption |]).
  split; [| split; [| split; [assumption |]]].
  - destruct B8 as [E | (_ & _ & E)]; rewrite E;
      [assumption | unfold NCCL_LOG_INFO; lia].
  - destruct B8 as [E | (Hw & Hp & E)]; [left; exact E |].
    right. unfold level_after_override, overridden in Hw.
    destruct (Z.eqb_spec (ncclDebugNoWarn th) 0) as [Hz | Hz];
      destruct (Z.eqb_spec level NCCL_LOG_WARN) as [Hl | Hl];
      cbn [negb andb] in Hw;
      unfold NCCL_LOG_INFO, NCCL_LOG_WARN in *; lia.
  - intros Ht. destruct B10 as [E | [E _]]; [exact E | contradiction].
Qed.

Lemma call_frame_witness :
  exists st' th',
    ncclDebugLog sample_world sample_clock NCCL_LOG_WARN NCCL_INIT
                 (str "f.cc") 12 (str "boom") plain_thread sample_state
    = Ok (st', th')
    /\ ncclDebugMask st' = Z.lor NCCL_INIT NCCL_ENV
    /\ ncclDebugFile st' = Stdout.
Proof.
  destruct (ncclDebugLog sample_world sample_clock NCCL_LOG_WARN NCCL_INIT
              (str "f.cc") 12 (str "boom") plain_thread sample_state)
    as [[st' th'] | f |] eqn:H;
    [| vm_compute in H; discriminate H | vm_compute in H; discriminate H].
  exists st', th'. split; [reflexivity |].
  destruct (call_frame sample_world sample_clock NCCL_LOG_WARN NCCL_INIT
              (str "f.cc") 12 (str "boom") plain_thread sample_state st' th'
              ltac:(vm_compute; congruence) H) as (H1 & H2 & _).
  split; assumption.
Defined.

(** X12.  With [NCCL_WARN_ENABLE_DEBUG_INFO] set, a WARN record that is
    written sets the configured level to INFO, whatever it was (a level of
    TRACE comes down to INFO).  Starting from level WARN, an INFO record
    that was dropped before the warning is written after it. *)
Theorem written_warn_sets_level_info w ck flags filefunc line message th st :
  ncclDebugLevel st <> -1 ->
  ncclDebugNoWarn th = 0 ->
  NCCL_LOG_WARN <= ncclDebugLevel st ->
  Z.land flags (ncclDebugMask st) <> 0 ->
  stays_in_buffer (warn_prefix st ck filefunc line) message ->
  ncclParamWarnSetDebugInfo w <> 0 ->
  exists st' th',
    ncclDebugLog w ck NCCL_LOG_WARN flags filefunc line message th st = Ok (st', th')
    /\ ncclDebugLevel st' = NCCL_LOG_INFO
    /\ (ncclDebugLevel st = NCCL_LOG_WARN ->
        forall ck2 flags2 filefunc2 line2 message2,
          Z.land flags2 (ncclDebugMask st) <> 0 ->
          stays_in_buffer (info_prefix st ck2 filefunc2 line2) message2 ->
          ncclDebugLog w ck2 NCCL_LOG_INFO flags2 filefunc2 line2 message2 th st
          = Ok (st, th)
          /\ exists st'' th'',
              ncclDebugLog w ck2 NCCL_LOG_INFO flags2 filefunc2 line2 message2 th' st'
              = Ok (st'', th'')
              /\ written st''
                 = written st'
                   ++ [(ncclDebugFile st,
                        line_of (info_prefix st ck2 filefunc2 line2) message2)]).
Proof.
  intros Hinit Hnw Hlevel Hflags Hfit Hparam.
  assert (Hp : (ncclParamWarnSetDebugInfo w =? 0) = false)
    by (apply Z.eqb_neq; assumption).
  rewrite ncclDebugLog_stages by assumption.
  unfold level_after_override, flags_after_override.
  rewrite no_override by assumption.
  change (NCCL_LOG_WARN =? NCCL_LOG_WARN) with true. cbv iota.
  rewrite filter_and_emit_fits.
  2:{ intros prefix H. change (Some (warn_prefix st ck filefunc line) = Some prefix) in H.
      inversion H; subst. exact Hfit. }
  assert (E : eligible (save_last_error message st) NCCL_LOG_WARN flags = true)
    by (apply eligible_true; split; [exact Hlevel | exact Hflags]).
  rewrite E.
  change (prefix_of (save_last_error message st) ck NCCL_LOG_WARN flags filefunc line)
    with (Some (warn_prefix st ck filefunc line)).
  cbv iota. unfold after_prefix.
  change (NCCL_LOG_WARN =? NCCL_LOG_WARN) with true. rewrite Hp. cbn [andb negb].
  eexists. eexists. split; [reflexivity |]. split; [reflexivity |].
  intros Hw ck2 flags2 filefunc2 line2 message2 Hflags2 Hfit2. split.
  - rewrite ncclDebugLog_stages by assumption.
    unfold level_after_override, flags_after_override.
    rewrite no_override by assumption.
    change (NCCL_LOG_INFO =? NCCL_LOG_WARN) with false. cbv iota.
    unfold filter_and_emit.
    assert (E2 : eligible st NCCL_LOG_INFO flags2 = false).
    { apply eligible_false. left. rewrite Hw.
      unfold NCCL_LOG_WARN, NCCL_LOG_INFO. lia. }
    rewrite E2. reflexivity.
  - rewrite ncclDebugLog_stages by (cbn; unfold NCCL_LOG_INFO; lia).
    unfold level_after_override, flags_after_override.
    assert (Hnw' : ncclDebugNoWarn (cache_tid ck th) = 0)
      by (unfold cache_tid; destruct (tid th =? -1); cbn; assumption).
    rewrite no_override by assumption.
    change (NCCL_LOG_INFO =? NCCL_LOG_WARN) with false. cbv iota.
    rewrite filter_and_emit_fits.
    2:{ intros prefix H. inversion H; subst. exact Hfit2. }
    match goal with
    | |- context [eligible ?s NCCL_LOG_INFO flags2] =>
        assert (E3 : eligible s NCCL_LOG_INFO flags2 = true)
          by (apply eligible_true; split; [cbn; lia | exact Hflags2]);
        rewrite E3
    end.
    cbn [prefix_of]. unfold prefix_of.
    change (NCCL_LOG_INFO =? NCCL_LOG_WARN) with false.
    change (NCCL_LOG_INFO =? NCCL_LOG_INFO) with true. cbv iota.
    eexists. eexists. split; reflexivity.
Qed.

Lemma written_warn_sets_level_info_witness :
  exists st' th',
    ncclDebugLog escalating_world sample_clock NCCL_LOG_WARN NCCL_INIT
                 (str "f.cc") 12 (str "boom") plain_thread warn_state
    = Ok (st', th')
    /\ ncclDebugLevel st' = NCCL_LOG_INFO.
Proof.
  destruct (written_warn_sets_level_info escalating_world sample_clock NCCL_INIT
              (str "f.cc") 12 (str "boom") plain_thread warn_state)
    as (st' & th' & H1 & H2 & _).
  - vm_compute. congruence.
  - reflexivity.
  - vm_compute. congruence.
  - vm_compute. congruence.
  - unfold stays_in_buffer. vm_compute. repeat split; congruence.
  - vm_compute. congruence.
  - exists st', th'. split; assumption.
Defined.

(** X13.  On a thread that has set [ncclDebugNoWarn], a WARN call is an
    INFO call with the thread's flags: the flags the caller passed play no
    part.  So with a configured level below INFO the warning vanishes
    altogether: nothing is written and the state, last error included, is
    as before. *)
Theorem suppressed_warn_is_info w ck flags filefunc line message th st :
  ncclDebugNoWarn th <> 0 ->
  ncclDebugLog w ck NCCL_LOG_WARN flags filefunc line message th st
  = ncclDebugLog w ck NCCL_LOG_INFO (u64 (ncclDebugNoWarn th))
                 filefunc line message th st
  /\ (ncclDebugLevel st <> -1 -> ncclDebugLevel st < NCCL_LOG_INFO ->
      ncclDebugLog w ck NCCL_LOG_WARN flags filefunc line message th st
      = Ok (st, th)).
Proof.
  intros Hq.
  assert (Ho : overridden th NCCL_LOG_WARN = true).
  { unfold overridden.
    replace (ncclDebugNoWarn th =? 0) with false
      by (symmetry; apply Z.eqb_neq; assumption).
    reflexivity. }
  assert (Ho' : overridden th NCCL_LOG_INFO = false) by (apply no_override_other; discriminate).
  split.
  - rewrite !ncclDebugLog_unfold.
    unfold level_after_override, flags_after_override. rewrite Ho, Ho'.
    reflexivity.
  - intros Hinit Hlow. rewrite ncclDebugLog_stages by assumption.
    unfold level_after_override, flags_after_override. rewrite Ho.
    change (NCCL_LOG_INFO =? NCCL_LOG_WARN) with false. cbv iota.
    unfold filter_and_emit.
    assert (E : eligible st NCCL_LOG_INFO (u64 (ncclDebugNoWarn th)) = false)
      by (apply eligible_false; left; exact Hlow).
    rewrite E. reflexivity.
Qed.

Lemma suppressed_warn_is_info_witness :
  ncclDebugLog sample_world sample_clock NCCL_LOG_WARN NCCL_COLL
               (str "f.cc") 12 (str "boom") quiet_thread warn_state
  = Ok (warn_state, quiet_thread).
Proof.
  apply (suppressed_warn_is_info sample_world sample_clock NCCL_COLL
           (str "f.cc") 12 (str "boom") quiet_thread warn_state);
    vm_compute; congruence.
Defined.

(** ** More on the subsystem mask *)

Lemma subsys_mask_u64 t : Z.land (subsys_mask t) (Z.ones 64) = subsys_mask t.
Proof.
  unfold subsys_mask.
  repeat match goal with
         | |- context [if ?c then _ else _] => destruct c; [reflexivity |]
         end.
  reflexivity.
Qed.

Lemma subsys_union_u64 toks :
  Z.land (subsys_union toks) (Z.ones 64) = subsys_union toks.
Proof.
  induction toks as [| t toks IH]; cbn [subsys_union fold_right]; [reflexivity |].
  fold (subsys_union toks). rewrite Z.land_lor_distr_l, subsys_mask_u64, IH.
  reflexivity.
Qed.

Lemma u64_range x : Z.land x (Z.ones 64) = x -> 0 <= x < 2 ^ 64.
Proof.
  intros H. rewrite Z.land_ones in H by lia. rewrite <- H.
  apply Z.mod_pos_bound. lia.
Qed.

Lemma subsys_union_perm toks toks' :
  Permutation toks toks' -> subsys_union toks = subsys_union toks'.
Proof.
  induction 1 as [| t l l' _ IH | a b l | l1 l2 l3 _ IH1 _ IH2];
    cbn [subsys_union fold_right].
  - reflexivity.
  - fold (subsys_union l). fold (subsys_union l'). rewrite IH. reflexivity.
  - rewrite !Z.lor_assoc, (Z.lor_comm (subsys_mask b)). reflexivity.
  - congruence.
Qed.

(** X14.  The loop of lines 91-128 does not care in which order the tokens
    come or how often one is repeated, in either mode; and the mask it
    leaves fits the 64-bit [ncclDebugMask] for every list. *)
Theorem subsys_tokens_order_free invert toks toks' m list :
  Z.land m (Z.ones 64) = m ->
  Permutation toks toks' ->
  fold_left (subsys_step invert) toks m = fold_left (subsys_step invert) toks' m
  /\ (forall t, fold_left (subsys_step invert) (t :: t :: toks) m
                = fold_left (subsys_step invert) (t :: toks) m)
  /\ 0 <= parse_subsys list < 2 ^ 64.
Proof.
  intros Hm Hperm. split; [| split].
  - destruct invert.
    + rewrite !fold_subsys_remove by assumption.
      rewrite (subsys_union_perm _ _ Hperm). reflexivity.
    + rewrite !fold_subsys_add.
      rewrite (subsys_union_perm _ _ Hperm). reflexivity.
  - intros t. destruct invert.
    + rewrite !fold_subsys_remove by assumption.
      cbn [subsys_union fold_right]. f_equal.
      rewrite Z.lor_assoc, Z.lor_diag. reflexivity.
    + rewrite !fold_subsys_add.
      cbn [subsys_union fold_right]. f_equal.
      rewrite Z.lor_assoc, Z.lor_diag. reflexivity.
  - apply u64_range. rewrite parse_subsys_spec. unfold subsys_list_spec.
    destruct list as [| c rest]; [reflexivity |].
    destruct (Ascii.eqb c "^").
    + apply ldiff_keeps_u64. reflexivity.
    + apply subsys_union_u64.
Qed.

Lemma subsys_tokens_order_free_witness :
  fold_left (subsys_step true) [str "COLL"; str "INIT"] NCCL_ALL
  = fold_left (subsys_step true) [str "INIT"; str "COLL"] NCCL_ALL.
Proof.
  apply (subsys_tokens_order_free true [str "COLL"; str "INIT"]
           [str "INIT"; str "COLL"] NCCL_ALL []).
  - reflexivity.
  - apply perm_swap.
Defined.

(** X15.  A mask of zero silences the logger: no call writes anything,
    whatever its level and flags.  That is the mask a present
    [NCCL_DEBUG_SUBSYS] leaves when it is empty or names no subsystem. *)
Theorem empty_mask_silences w w0 st0 list ck level flags filefunc line message th st :
  ncclDebugLevel st0 = -1 ->
  env_NCCL_DEBUG_SUBSYS w0 = Some list ->
  subsys_union (strtok_all "," list) = 0 ->
  hd "x"%char list <> "^"%char ->
  ncclDebugInit w0 st0 = Ok st ->
  ncclDebugLevel st <> -1 ->
  ncclDebugMask st = 0
  /\ exists st',
      ncclDebugLog w ck level flags filefunc line message th st = Ok (st', th)
      /\ written st' = written st.
Proof.
  intros Hs He Hu Hhd Hinit Hl.
  assert (Hmask : ncclDebugMask st = 0).
  { rewrite (ncclDebugInit_mask w0 st0 list st Hs He Hinit), parse_subsys_spec.
    unfold subsys_list_spec. destruct list as [| c rest]; [reflexivity |].
    destruct (Ascii.eqb_spec c "^") as [-> | _]; [cbn in Hhd; congruence |].
    exact Hu. }
  split; [exact Hmask |].
  rewrite ncclDebugLog_stages by assumption. unfold filter_and_emit.
  set (st1 := if _ =? NCCL_LOG_WARN then _ else st).
  assert (E : eligible st1 (level_after_override th level)
                       (flags_after_override th level flags) = false).
  { apply eligible_false. right.
    replace (ncclDebugMask st1) with 0
      by (unfold st1; destruct (_ =? NCCL_LOG_WARN); symmetry; exact Hmask).
    apply Z.land_0_r. }
  rewrite E. exists st1. split; [reflexivity |].
  unfold st1. destruct (_ =? NCCL_LOG_WARN); reflexivity.
Qed.

Lemma empty_mask_silences_witness :
  exists st,
    ncclDebugInit empty_subsys_world initial_state = Ok st
    /\ ncclDebugMask st = 0
    /\ exists st',
        ncclDebugLog empty_subsys_world sample_clock NCCL_LOG_WARN NCCL_ALL
                     (str "f.cc") 12 (str "boom") plain_thread st
        = Ok (st', plain_thread)
        /\ written st' = written st.
Proof.
  destruct (ncclDebugInit_without_file empty_subsys_world initial_state eq_refl eq_refl)
    as [st H].
  exists st. split; [exact H |].
  apply (empty_mask_silences empty_subsys_world empty_subsys_world initial_state []
           sample_clock NCCL_LOG_WARN NCCL_ALL (str "f.cc") 12 (str "boom")
           plain_thread st); try reflexivity; try exact H.
  - vm_compute. congruence.
  - destruct (ncclDebugInit_fields empty_subsys_world initial_state st eq_refl H)
      as [Hl _].
    rewrite Hl. vm_compute. congruence.
Defined.

(** ** More on the file-path template *)

Lemma c_string_firstn n s : c_string s = true -> c_string (firstn n s) = true.
Proof.
  revert n. induction s as [| c s IH]; intros [| n] H; try reflexivity.
  apply c_string_cons in H. destruct H as [Hc Hs].
  cbn [firstn]. unfold c_string. cbn [forallb]. rewrite Hc. apply IH. exact Hs.
Qed.

(** The loop of lines 145-165 on a stretch without [%]: plain copying, up
    to the index [PATH_MAX]. *)
Lemma debugFn_loop_plain host pid_ env : forall fuel remaining consumed out pad,
  env = consumed ++ remaining ->
  c_string remaining = true ->
  percent_free remaining = true ->
  len consumed <= PATH_MAX ->
  (Z.to_nat (PATH_MAX - len consumed) <= fuel)%nat ->
  (List.length (firstn (Z.to_nat (PATH_MAX - len consumed)) remaining)
   < List.length pad)%nat ->
  exists pad',
    (List.length pad'
     + List.length (firstn (Z.to_nat (PATH_MAX - len consumed)) remaining)
     = List.length pad)%nat
    /\ debugFn_loop fuel env host pid_ (len consumed) (map Some out ++ pad) (len out)
       = Ok (map Some (out ++ firstn (Z.to_nat (PATH_MAX - len consumed)) remaining)
               ++ pad',
             len out + len (firstn (Z.to_nat (PATH_MAX - len consumed)) remaining)).
Proof.
  assert (Hstop : forall fuel remaining consumed out pad,
             env = consumed ++ remaining ->
             c_string remaining = true ->
             (remaining = [] \/ PATH_MAX <= len consumed) ->
             debugFn_loop fuel env host pid_ (len consumed) (map Some out ++ pad) (len out)
             = Ok (map Some out ++ pad, len out)).
  { intros fuel remaining consumed out pad Henv Hcs Hcase.
    destruct remaining as [| ch r].
    - rewrite app_nil_r in Henv. subst env.
      destruct fuel; cbn [debugFn_loop]; rewrite char_at_end; reflexivity.
    - destruct Hcase as [Hnil | Hfull]; [discriminate |].
      assert (Hat : char_at env (len consumed) = Ok ch)
        by (subst env; apply char_at_mid).
      replace (len consumed <? PATH_MAX) with false in *
        by (symmetry; apply Z.ltb_ge; lia).
      destruct fuel; cbn [debugFn_loop]; rewrite Hat; cbn [bind];
        replace (len consumed <? PATH_MAX) with false
          by (symmetry; apply Z.ltb_ge; lia);
        rewrite andb_false_r; reflexivity. }
  induction fuel as [| k IH]; intros remaining consumed out pad Henv Hcs Hpf Hc Hfuel Hroom.
  - assert (Hz : Z.to_nat (PATH_MAX - len consumed) = 0%nat) by lia.
    rewrite Hz in *. cbn [firstn]. exists pad. rewrite app_nil_r, Z.add_0_r.
    split; [cbn; lia |].
    apply (Hstop 0%nat remaining); [assumption | assumption | right; lia].
  - destruct remaining as [| ch r].
    { rewrite firstn_nil in *. exists pad. rewrite app_nil_r, Z.add_0_r.
      split; [cbn; lia |].
      apply (Hstop (S k) []); [assumption | reflexivity | left; reflexivity]. }
    destruct (Z.eq_dec (len consumed) PATH_MAX) as [Hfull | Hnot].
    { assert (Hz : Z.to_nat (PATH_MAX - len consumed) = 0%nat) by lia.
      rewrite Hz in *. cbn [firstn]. exists pad. rewrite app_nil_r, Z.add_0_r.
      split; [cbn; lia |].
      apply (Hstop (S k) (ch :: r)); [assumption | assumption | right; lia]. }
    pose proof Hcs as Hcs0.
    apply c_string_cons in Hcs. destruct Hcs as [Hch Hcs].
    unfold percent_free in Hpf. cbn [forallb] in Hpf.
    apply andb_true_iff in Hpf. destruct Hpf as [Hp Hpf].
    apply negb_true_iff in Hp.
    assert (Hat : char_at env (len consumed) = Ok ch)
      by (subst env; apply char_at_mid).
    assert (Hn : Z.to_nat (PATH_MAX - len consumed)
                 = S (Z.to_nat (PATH_MAX - len (consumed ++ [ch])))).
    { rewrite len_app. change (len [ch]) with 1. lia. }
    rewrite Hn in *. cbn [firstn] in *. cbn [List.length] in Hroom.
    cbn [debugFn_loop]. rewrite Hat. cbn [bind]. rewrite Hch.
    replace (len consumed <? PATH_MAX) with true by (symmetry; apply Z.ltb_lt; lia).
    cbn [negb andb]. rewrite Hp. cbn [negb].
    replace (len consumed + 1 - 1) with (len consumed) by lia.
    rewrite Hat. cbn [bind].
    destruct pad as [| p0 pad]; [cbn in Hroom; lia |].
    rewrite store_next. cbn [bind].
    replace (len consumed + 1) with (len (consumed ++ [ch]))
      by (rewrite len_app; reflexivity).
    replace (len out + 1) with (len (out ++ [ch]))
      by (rewrite len_app; reflexivity).
    destruct (IH r (consumed ++ [ch]) (out ++ [ch]) pad) as (pad' & Hl & Hloop).
    + subst env. rewrite <- app_assoc. reflexivity.
    + assumption.
    + exact Hpf.
    + rewrite len_app. change (len [ch]) with 1. lia.
    + lia.
    + cbn [List.length] in Hroom. lia.
    + exists pad'. split; [cbn [List.length] in *; lia |].
      rewrite Hloop. same_buffer.
Qed.

(** X16.  A template without [%] is copied as it is, and cut after
    [PATH_MAX] bytes when it is longer: for such templates the bound of
    line 145 does keep the expansion inside [debugFn]. *)
Theorem plain_template_is_cut_at_PATH_MAX template host pid_ :
  c_string template = true ->
  percent_free template = true ->
  expand template host pid_ = Ok (firstn (Z.to_nat PATH_MAX) template)
  /\ (len template <= PATH_MAX -> expand template host pid_ = Ok template).
Proof.
  intros Hcs Hpf.
  assert (H : expand template host pid_ = Ok (firstn (Z.to_nat PATH_MAX) template)).
  { destruct (debugFn_loop_plain host pid_ template (Z.to_nat PATH_MAX) template [] []
                (repeat (Some NUL) (Z.to_nat (PATH_MAX + 1))) eq_refl Hcs Hpf)
      as (pad' & Hl & Hloop).
    - vm_compute. congruence.
    - change (len []) with 0. lia.
    - rewrite length_firstn, repeat_length. change (len []) with 0.
      unfold PATH_MAX. lia.
    - unfold expand, expand_debugFn. cbn [map app] in Hloop.
      change (len []) with 0 in *. rewrite Z.sub_0_r in *.
      rewrite Hloop. cbn [bind].
      rewrite repeat_length, length_firstn in Hl.
      destruct pad' as [| x pad'];
        [cbn [List.length] in Hl; unfold PATH_MAX in *; lia |].
      rewrite Z.add_0_l, store_next. cbn [bind].
      apply c_str_known. apply c_string_firstn. exact Hcs. }
  split; [exact H |].
  intros Hlen. rewrite H. f_equal. apply firstn_all2. unfold len in Hlen. lia.
Qed.

Lemma plain_template_is_cut_at_PATH_MAX_witness :
  expand (str "/tmp/nccl.log") (str "h1") 42 = Ok (str "/tmp/nccl.log").
Proof.
  apply (plain_template_is_cut_at_PATH_MAX (str "/tmp/nccl.log") (str "h1") 42);
    try reflexivity.
  vm_compute. congruence.
Defined.

(** ** Loops end *)

Section NeverCutShort.

Lemma store_ends b i c : store b i c <> OutOfFuel.
Proof. unfold store. destruct (in_bounds b i); discriminate. Qed.

Lemma load_ends b i : load b i <> OutOfFuel.
Proof.
  unfold load. destruct (in_bounds b i); [| discriminate].
  destruct (nth _ _ _); discriminate.
Qed.

Lemma char_at_ends s c : char_at s c <> OutOfFuel.
Proof.
  unfold char_at. destruct (_ && _); [discriminate |].
  destruct (_ =? _); discriminate.
Qed.

Lemma store_chars_ends s : forall b off, store_chars b off s <> OutOfFuel.
Proof.
  induction s as [| c s IH]; intros b off; cbn [store_chars]; [discriminate |].
  pose proof (store_ends b off c).
  destruct (store b off c); cbn [bind]; [apply IH | discriminate | congruence].
Qed.

Lemma snprintf_ends b off size_ s : snprintf b off size_ s <> OutOfFuel.
Proof.
  unfold snprintf. destruct (size_ =? 0); [discriminate |].
  pose proof (store_chars_ends (firstn (Z.to_nat (Z.min (len s) (size_ - 1))) s) b off).
  destruct (store_chars _ _ _) as [b1 | |]; cbn [bind]; [| discriminate | congruence].
  pose proof (store_ends b1 (off + Z.min (len s) (size_ - 1)) NUL).
  destruct (store b1 _ _); cbn [bind]; [discriminate | discriminate | congruence].
Qed.

Lemma load_chars_ends n : forall b off, load_chars b off n <> OutOfFuel.
Proof.
  induction n as [| n IH]; intros b off; cbn [load_chars]; [discriminate |].
  pose proof (load_ends b off).
  destruct (load b off); cbn [bind]; [| discriminate | congruence].
  pose proof (IH b (off + 1)).
  destruct (load_chars b (off + 1) n); cbn [bind];
    [discriminate | discriminate | congruence].
Qed.

Lemma load_ok_in_bounds b i c : load b i = Ok c -> 0 <= i < size b.
Proof.
  unfold load, in_bounds. intros H.
  destruct (Z.leb_spec 0 i); destruct (Z.ltb_spec i (size b));
    cbn [andb] in H; try discriminate. lia.
Qed.

(** Reading a string ends at a NUL or at the end of the array. *)
Lemma c_str_from_ends fuel : forall b off,
  size b - off <= Z.of_nat fuel -> c_str_from fuel b off <> OutOfFuel.
Proof.
  induction fuel as [| k IH]; intros b off Hf; cbn [c_str_from].
  - pose proof (load_ends b off).
    destruct (load b off) as [c | |] eqn:E; cbn [bind]; [| discriminate | congruence].
    apply load_ok_in_bounds in E. destruct (Ascii.eqb c NUL); [discriminate | lia].
  - pose proof (load_ends b off).
    destruct (load b off) as [c | |] eqn:E; cbn [bind]; [| discriminate | congruence].
    destruct (Ascii.eqb c NUL); [discriminate |].
    pose proof (IH b (off + 1) ltac:(lia)).
    destruct (c_str_from k b (off + 1)); cbn [bind];
      [discriminate | discriminate | congruence].
Qed.

Ltac step_bind :=
  match goal with
  | |- bind (char_at ?s ?c) _ <> OutOfFuel =>
      let H := fresh in
      pose proof (char_at_ends s c) as H;
      destruct (char_at s c); cbn [bind]; [| discriminate | congruence]; clear H
  | |- bind (store ?b ?i ?c) _ <> OutOfFuel =>
      let H := fresh in
      pose proof (store_ends b i c) as H;
      destruct (store b i c); cbn [bind]; [| discriminate | congruence]; clear H
  | |- bind (snprintf ?b ?o ?z ?s) _ <> OutOfFuel =>
      let H := fresh in
      pose proof (snprintf_ends b o z s) as H;
      destruct (snprintf b o z s) as [[? ?] | |]; cbn [bind];
      [| discriminate | congruence]; clear H
  end.

(** The index [c] grows with every turn and the loop test stops it at
    [PATH_MAX]. *)
Lemma debugFn_loop_ends env host pid_ : forall fuel c debugFn dfn,
  PATH_MAX - c <= Z.of_nat fuel ->
  debugFn_loop fuel env host pid_ c debugFn dfn <> OutOfFuel.
Proof.
  induction fuel as [| k IH]; intros c debugFn dfn Hf; cbn [debugFn_loop].
  - step_bind.
    replace (c <? PATH_MAX) with false by (symmetry; apply Z.ltb_ge; lia).
    rewrite andb_false_r. discriminate.
  - step_bind.
    destruct (_ && _); [| discriminate].
    destruct (negb _).
    + step_bind. step_bind. apply IH. lia.
    + step_bind.
      destruct (Ascii.eqb _ "%"); [step_bind; apply IH; lia |].
      destruct (Ascii.eqb _ "h"); [step_bind; apply IH; lia |].
      destruct (Ascii.eqb _ "p"); [step_bind; apply IH; lia |].
      step_bind. step_bind. step_bind. apply IH. lia.
Qed.

Lemma expand_debugFn_ends env host pid_ : expand_debugFn env host pid_ <> OutOfFuel.
Proof.
  unfold expand_debugFn.
  pose proof (debugFn_loop_ends env host pid_ (Z.to_nat PATH_MAX) 0
                (repeat (Some NUL) (Z.to_nat (PATH_MAX + 1))) 0 ltac:(lia)) as H.
  destruct (debugFn_loop _ _ _ _ _ _ _) as [[b n] | |]; cbn [bind];
    [apply store_ends | discriminate | congruence].
Qed.

Lemma c_str_ends b : c_str b <> OutOfFuel.
Proof. unfold c_str. apply c_str_from_ends. unfold size. lia. Qed.

Lemma ncclDebugInit_ends w st : ncclDebugInit w st <> OutOfFuel.
Proof.
  unfold ncclDebugInit. destruct (negb _); [discriminate |].
  assert (H : forall temp host pid_ cur, open_debug_file w temp host pid_ cur <> OutOfFuel).
  { intros temp host pid_ cur. unfold open_debug_file.
    destruct (env_NCCL_DEBUG_FILE w) as [e |]; [| discriminate].
    destruct (_ >? _); [| discriminate].
    pose proof (expand_debugFn_ends e host pid_).
    destruct (expand_debugFn e host pid_) as [b | |]; cbn [bind];
      [| discriminate | congruence].
    pose proof (load_ends b 0).
    destruct (load b 0); cbn [bind]; [| discriminate | congruence].
    destruct (negb _); [| discriminate].
    pose proof (c_str_ends b).
    destruct (c_str b) as [path | |]; cbn [bind]; [| discriminate | congruence].
    destruct (os_fopen w path); discriminate. }
  match goal with
  | |- bind ?X _ <> _ => pose proof (H (tempNcclDebugLevel (env_NCCL_DEBUG w))
                                       (os_hostname w) (os_pid w) (ncclDebugFile st));
                         destruct X; cbn [bind]
  end; [discriminate | discriminate | congruence].
Qed.

Lemma assemble_ends prefix message st : assemble prefix message st <> OutOfFuel.
Proof.
  unfold assemble, write_message.
  pose proof (snprintf_ends (repeat None (Z.to_nat sizeof_buffer)) 0 sizeof_buffer prefix).
  destruct (snprintf _ 0 sizeof_buffer prefix) as [[b n] | |]; cbn [bind];
    [| discriminate | congruence].
  destruct (negb _); [| discriminate].
  match goal with
  | |- bind (snprintf ?b ?o ?z ?s) _ <> _ =>
      pose proof (snprintf_ends b o z s);
      destruct (snprintf b o z s) as [[b1 n1] | |]; cbn [bind];
      [| discriminate | congruence]
  end.
  match goal with
  | |- bind (store ?b ?i ?c) _ <> _ =>
      pose proof (store_ends b i c);
      destruct (store b i c) as [b2 | |]; cbn [bind];
      [| discriminate | congruence]
  end.
  match goal with
  | |- bind (load_chars ?b ?o ?n) _ <> _ =>
      pose proof (load_chars_ends n b o);
      destruct (load_chars b o n); cbn [bind];
      [discriminate | discriminate | congruence]
  end.
Qed.

(** X17.  Neither [ncclDebugInit] nor [ncclDebugLog] can loop for ever:
    the template loop of lines 145-165 advances its index by one or two on
    every turn and stops at [PATH_MAX] at the latest, and the other loops
    run over finite texts.  Every call returns or ends in an access outside
    an array. *)
Theorem init_and_log_end w ck level flags filefunc line message th st :
  ncclDebugInit w st <> OutOfFuel
  /\ ncclDebugLog w ck level flags filefunc line message th st <> OutOfFuel
  /\ (forall env host pid_ c debugFn dfn,
         debugFn_loop (Z.to_nat (PATH_MAX - c)) env host pid_ c debugFn dfn
         <> OutOfFuel).
Proof.
  split; [apply ncclDebugInit_ends |]. split.
  - rewrite ncclDebugLog_unfold.
    assert (H : (if ncclDebugLevel st =? -1 then ncclDebugInit w st else Ok st)
                <> OutOfFuel)
      by (destruct (_ =? _); [apply ncclDebugInit_ends | discriminate]).
    destruct (if ncclDebugLevel st =? -1 then ncclDebugInit w st else Ok st)
      as [st1 | |]; cbn [bind]; [| discriminate | congruence].
    unfold filter_and_emit. destruct (eligible _ _ _); [| discriminate].
    destruct (prefix_of _ _ _ _ _ _) as [prefix |]; [| discriminate].
    match goal with
    | |- bind (assemble ?p ?m ?s) _ <> _ =>
        pose proof (assemble_ends p m s);
        destruct (assemble p m s); cbn [bind];
        [discriminate | discriminate | congruence]
    end.
  - intros env host pid_ c debugFn dfn. apply debugFn_loop_ends. lia.
Qed.

End NeverCutShort.

(** ** The time stamp and the thread name *)

Lemma decimal_below_1000 n :
  0 <= n < 1000 ->
  decimal n
  = if n <? 10 then [digit n]
    else if n <? 100 then [digit (n / 10); digit (n mod 10)]
    else [digit (n / 100); digit (n / 10 mod 10); digit (n mod 10)].
Proof.
  intros Hn. unfold decimal, digits_fuel.
  replace (n <? 0) with false by (symmetry; apply Z.ltb_ge; lia).
  destruct (Z.ltb_spec n 10) as [H10 | H10].
  - cbn [digits]. replace (n <? 10) with true by (symmetry; apply Z.ltb_lt; lia).
    reflexivity.
  - assert (Hlog : 3 <= Z.log2 n).
    { change 3 with (Z.log2 8). apply Z.log2_le_mono. lia. }
    destruct (Z.to_nat (Z.log2 n)) as [| [| k]] eqn:Ek; try lia.
    cbn [digits].
    replace (n <? 10) with false by (symmetry; apply Z.ltb_ge; lia).
    assert (Hq : 0 < n / 10) by (apply Z.div_str_pos; lia).
    destruct (Z.ltb_spec n 100) as [H100 | H100].
    + replace (n / 10 <? 10) with true
        by (symmetry; apply Z.ltb_lt; apply Z.div_lt_upper_bound; lia).
      reflexivity.
    + assert (Hq2 : 10 <= n / 10) by (apply Z.div_le_lower_bound; lia).
      replace (n / 10 <? 10) with false by (symmetry; apply Z.ltb_ge; lia).
      destruct k as [| k].
      { assert (Z.log2 n = 2) by lia. lia. }
      cbn [digits].
      replace (n / 10 / 10) with (n / 100) by (rewrite Z.div_div by lia; reflexivity).
      replace (n / 100 <? 10) with true
        by (symmetry; apply Z.ltb_lt; apply Z.div_lt_upper_bound; lia).
      reflexivity.
Qed.

(** X18.  For a time not before the epoch, the format [get_local_now]
    builds ends in exactly three decimal digits, the milliseconds of the
    current second with zeros in front. *)
Theorem local_now_format_has_three_digits count :
  0 <= count ->
  let ms := count mod 1000 in
  local_now_format count
  = str "%F %T," ++ [digit (ms / 100); digit (ms / 10 mod 10); digit (ms mod 10)]
  /\ len (local_now_format count) = 9.
Proof.
  intros Hc ms.
  assert (Hms : 0 <= ms < 1000) by (apply Z.mod_pos_bound; lia).
  unfold local_now_format, ostream_int.
  rewrite Z.rem_mod_nonneg by lia. fold ms.
  rewrite (decimal_below_1000 ms Hms). cbv zeta.
  destruct (Z.ltb_spec ms 10) as [H10 | H10].
  - rewrite (Z.div_small ms 100), (Z.div_small ms 10), (Z.mod_small ms 10) by lia.
    split; reflexivity.
  - destruct (Z.ltb_spec ms 100) as [H100 | H100].
    + rewrite (Z.div_small ms 100) by lia.
      rewrite (Z.mod_small (ms / 10) 10)
        by (split; [apply Z.div_pos; lia | apply Z.div_lt_upper_bound; lia]).
      split; reflexivity.
    + split; reflexivity.
Qed.

Lemma local_now_format_has_three_digits_witness :
  local_now_format 1700000000007 = str "%F %T,007".
Proof.
  destruct (local_now_format_has_three_digits 1700000000007 ltac:(lia)) as [H _].
  rewrite H. reflexivity.
Defined.

(** X19.  [ncclSetThreadName] names the thread only when the parameter is
    exactly 1 (2 does not enable it), and then with the formatted name cut
    to [NCCL_THREAD_NAMELEN - 1] bytes: the array is never overrun. *)
Theorem thread_name_is_cut_to_array NCCL_THREAD_NAMELEN SetThreadName name :
  0 < NCCL_THREAD_NAMELEN ->
  c_string name = true ->
  ncclSetThreadName NCCL_THREAD_NAMELEN SetThreadName name
  = if SetThreadName =? 1
    then Ok (Some (firstn (Z.to_nat (NCCL_THREAD_NAMELEN - 1)) name))
    else Ok None.
Proof.
  intros HN Hcs. unfold ncclSetThreadName.
  destruct (SetThreadName =? 1); cbn [negb]; [| reflexivity].
  pose proof (snprintf_next [] (repeat None (Z.to_nat NCCL_THREAD_NAMELEN))
                NCCL_THREAD_NAMELEN name HN) as H.
  cbn [map app] in H. change (len []) with 0 in H.
  rewrite H by (rewrite repeat_length; unfold len; lia).
  cbn [bind].
  rewrite c_str_known by (apply c_string_firstn; exact Hcs).
  cbn [bind]. f_equal. f_equal.
  destruct (Z_le_gt_dec (len name) (NCCL_THREAD_NAMELEN - 1)) as [Hle | Hgt].
  - rewrite Z.min_l by lia. rewrite !firstn_all2; [reflexivity | |]; unfold len in *; lia.
  - rewrite Z.min_r by lia. reflexivity.
Qed.

Lemma thread_name_is_cut_to_array_witness :
  ncclSetThreadName 16 1 (str "NCCL Service Thread 12")
  = Ok (Some (str "NCCL Service Th"))
  /\ ncclSetThreadName 16 2 (str "NCCL Service Thread 12") = Ok None.
Proof.
  split.
  - rewrite (thread_name_is_cut_to_array 16 1 (str "NCCL Service Thread 12"));
      [reflexivity | lia | reflexivity].
  - rewrite (thread_name_is_cut_to_array 16 2 (str "NCCL Service Thread 12"));
      [reflexivity | lia | reflexivity].
Defined.
